(** * PropertyFinder: a shallow embedding of [property_with_ui_flask.py]

    The development follows the Python module top-down: the string
    primitives the field extractors rely on, the extractors themselves,
    the validation filter, the three per-site adapters, the aggregation
    step built on pandas, and the Flask routes that start a run and
    import or export results.

    Modelling conventions.
    - A Python [str] is a [string]: text is held as its UTF-8 bytes, so
      the star of ["⭐ YES"] and the rupee sign are three-byte sequences.
      Substring search and replacement coincide on bytes and on code
      points because UTF-8 is self-synchronising.  [lower], the regular
      expression classes [\d] and [\s] and [strip] act on their ASCII
      ranges; other bytes are left alone.  Python's own versions also
      act beyond ASCII (decimal digits and blanks of other scripts,
      letters with a lower-case form); the two agree on ASCII text, and
      a statement that depends on the difference is made for the
      texts of [TextDomain].
    - [None] is [option]'s [None]; truthiness is written out where the
      source relies on it.
    - A Python [float] is a binary64 number: a finite one is the rational
      number it denotes, kept in lowest terms, and the two infinities
      stand beside them.  [float(...)] and the product of a float by an
      integer round the exact result to the nearest binary64 number,
      ties to even, as IEEE 754 arithmetic does.  The program produces
      no NaN and no negative zero.
    - Exceptions are values of [exn] carried by [result]. *)

From Stdlib Require Import Bool Arith ZArith QArith Qreduction Qcanon Lia List.
From Stdlib Require Import Ascii String DecimalString DecimalNat.
From Stdlib Require Import Permutation Sorted.
Import ListNotations.

Local Close Scope Qc_scope.
Local Close Scope Q_scope.
Local Open Scope string_scope.
Local Open Scope bool_scope.

(** ** Exceptions and results *)

Inductive exn : Type :=
| TypeError (msg : string)
| AttributeError (attr : string)
| NameError (name : string)
| ValueError (msg : string)
| ParserError (msg : string)
| WebDriverException (msg : string).

Inductive result (A : Type) : Type :=
| Ok (a : A)
| Raise (e : exn).

Arguments Ok {A} a.
Arguments Raise {A} e.

Definition bind {A B : Type} (m : result A) (k : A -> result B) : result B :=
  match m with
  | Ok a => k a
  | Raise e => Raise e
  end.

Notation "x <- m ;; k" := (bind m (fun x => k))
  (at level 61, m at next level, right associativity).

(** ** Binary64 numbers *)

Inductive pyfloat : Type :=
| Finite (q : Q)
| PosInf
| NegInf.

Module Binary64.

(** The binary64 number nearest to the positive rational [n / d], ties
    to even; [None] when it is beyond the largest finite number.  [e] is
    the exponent of the leading bit of [n / d]; [s] is the weight of the
    last of the 53 bits kept, never below that of the subnormal
    numbers. *)
Definition round_pos (n d : positive) : option Q :=
  let e0 := (Z.log2 (Zpos n) - Z.log2 (Zpos d))%Z in
  let e :=
    if (Zpos d * 2 ^ Z.max 0 e0 <=? Zpos n * 2 ^ Z.max 0 (- e0))%Z
    then e0 else (e0 - 1)%Z in
  let s := Z.max (e - 52) (-1074) in
  let num := (Zpos n * 2 ^ Z.max 0 (- s))%Z in
  let den := (Zpos d * 2 ^ Z.max 0 s)%Z in
  let quo := (num / den)%Z in
  let rest := (num mod den)%Z in
  let m :=
    if (2 * rest <? den)%Z then quo
    else if (den <? 2 * rest)%Z then (quo + 1)%Z
    else if Z.even quo then quo else (quo + 1)%Z in
  if ((0 <=? s) && (2 ^ 1024 <=? m * 2 ^ s))%Z then None
  else Some (Qred (if (0 <=? s)%Z
                   then Qmake (m * 2 ^ s) 1
                   else Qmake m (Z.to_pos (2 ^ (- s))))).

(** Rounding of an exact result. *)
Definition round64 (q : Q) : pyfloat :=
  match Qnum q with
  | Z0 => Finite (Qmake 0 1)
  | Zpos n =>
      match round_pos n (Qden q) with
      | Some v => Finite v
      | None => PosInf
      end
  | Zneg n =>
      match round_pos n (Qden q) with
      | Some v => Finite (Qred (Qopp v))
      | None => NegInf
      end
  end.

(** [x * k] for a float [x] and a positive integer [k] that binary64
    holds exactly, as the three factors of the price rule are. *)
Definition mul_int (x : pyfloat) (k : Z) : pyfloat :=
  match x with
  | Finite q => round64 (Qmult q (inject_Z k))
  | PosInf => PosInf
  | NegInf => NegInf
  end.

(** [x <= y]. *)
Definition leb (x y : pyfloat) : bool :=
  match x, y with
  | NegInf, _ => true
  | _, PosInf => true
  | Finite a, Finite b => Qle_bool a b
  | _, _ => false
  end.

(** [x > n] for an integer [n]; Python compares the two exactly. *)
Definition gt_int (x : pyfloat) (n : Z) : bool :=
  match x with
  | Finite q => negb (Qle_bool q (inject_Z n))
  | PosInf => true
  | NegInf => false
  end.

(** Truthiness: every float but zero. *)
Definition nonzero (x : pyfloat) : bool :=
  match x with
  | Finite q => negb (Qeq_bool q (Qmake 0 1))
  | _ => true
  end.

(** Not below zero. *)
Definition nonneg (x : pyfloat) : Prop :=
  match x with
  | Finite q => Qle (Qmake 0 1) q
  | PosInf => True
  | NegInf => False
  end.

End Binary64.

(** ** Python string primitives *)

Module PyStr.

Definition is_digit (c : ascii) : bool :=
  let n := nat_of_ascii c in ((48 <=? n) && (n <=? 57))%nat.

(** [str.isspace] and the class [\s] on the ASCII range. *)
Definition is_space (c : ascii) : bool :=
  let n := nat_of_ascii c in
  (((9 <=? n) && (n <=? 13)) || ((28 <=? n) && (n <=? 32)))%nat.

Definition lower_char (c : ascii) : ascii :=
  let n := nat_of_ascii c in
  if ((65 <=? n) && (n <=? 90))%nat then ascii_of_nat (n + 32) else c.

Fixpoint lower (s : string) : string :=
  match s with
  | EmptyString => EmptyString
  | String c r => String (lower_char c) (lower r)
  end.

Fixpoint lstrip (s : string) : string :=
  match s with
  | EmptyString => EmptyString
  | String c r => if is_space c then lstrip r else s
  end.

Fixpoint rstrip (s : string) : string :=
  match s with
  | EmptyString => EmptyString
  | String c r =>
      match rstrip r with
      | EmptyString => if is_space c then EmptyString else String c EmptyString
      | r' => String c r'
      end
  end.

Definition strip (s : string) : string := rstrip (lstrip s).

Definition startswith (s p : string) : bool := prefix p s.

(** [sub in s]. *)
Fixpoint contains (sub s : string) : bool :=
  prefix sub s
  || match s with
     | EmptyString => false
     | String _ r => contains sub r
     end.

(** [s.replace(old, new)] for a non-empty [old]: one pass from the
    left, occurrences do not overlap.  [skip] counts the characters of
    an occurrence of [old] still to be dropped. *)
Fixpoint replace_from (old new : string) (skip : nat) (s : string) : string :=
  match s with
  | EmptyString => EmptyString
  | String c r =>
      match skip with
      | S k => replace_from old new k r
      | O =>
          if prefix old s
          then new ++ replace_from old new (String.length old - 1) r
          else String c (replace_from old new 0 r)
      end
  end.

Definition replace (old new s : string) : string := replace_from old new 0 s.

(** Truthiness of a possibly-[None] string: [if not text]. *)
Definition truthy (t : option string) : bool :=
  match t with
  | None => false
  | Some EmptyString => false
  | Some _ => true
  end.

(** [str(x)] and [f"{x}"] for a possibly-[None] string. *)
Definition str (t : option string) : string :=
  match t with
  | None => "None"
  | Some s => s
  end.

(** The longest prefix made of digits, and what follows it: a greedy
    [\d*]. *)
Fixpoint span_digits (s : string) : string * string :=
  match s with
  | EmptyString => (EmptyString, EmptyString)
  | String c r =>
      if is_digit c
      then let (d, t) := span_digits r in (String c d, t)
      else (EmptyString, s)
  end.

Definition digit_val (c : ascii) : Z := (Z.of_nat (nat_of_ascii c) - 48)%Z.

Fixpoint digits_val (acc : Z) (s : string) : Z :=
  match s with
  | EmptyString => acc
  | String c r => digits_val (10 * acc + digit_val c)%Z r
  end.

Fixpoint all_digits (s : string) : bool :=
  match s with
  | EmptyString => true
  | String c r => is_digit c && all_digits r
  end.

Fixpoint all_spaces (s : string) : bool :=
  match s with
  | EmptyString => true
  | String c r => is_space c && all_spaces r
  end.

Fixpoint all_chars (p : ascii -> bool) (s : string) : bool :=
  match s with
  | EmptyString => true
  | String c r => p c && all_chars p r
  end.

Fixpoint has_digit (s : string) : bool :=
  match s with
  | EmptyString => false
  | String c r => is_digit c || has_digit r
  end.

Fixpoint pow10 (n : nat) : positive :=
  match n with
  | O => 1%positive
  | S k => (10 * pow10 k)%positive
  end.

(** The value of a decimal numeral with integer digits [ip] and
    fraction digits [fp]. *)
Definition decimal (ip fp : string) : Q :=
  Qred (Qmake (digits_val 0 (ip ++ fp)) (pow10 (String.length fp))).

(** [float(tok)] on numerals of the shape [digits], [digits.] and
    [digits.digits]: the binary64 number nearest to the decimal value;
    anything else is a [ValueError] here. *)
Definition float (tok : string) : result pyfloat :=
  let (ip, r) := span_digits tok in
  match ip, r with
  | EmptyString, _ => Raise (ValueError tok)
  | _, EmptyString => Ok (Binary64.round64 (decimal ip EmptyString))
  | _, String "." fp =>
      if all_digits fp then Ok (Binary64.round64 (decimal ip fp))
      else Raise (ValueError tok)
  | _, _ => Raise (ValueError tok)
  end.

End PyStr.

(** ** The texts on which bytes and code points agree *)

Module TextDomain.

Definition is_ascii (c : ascii) : bool := (nat_of_ascii c <? 128)%nat.

(** A text of ASCII characters only.  On such a text Python's [lower],
    [strip] and the classes [\d] and [\s] do what their ASCII versions
    above do. *)
Definition ascii_text (s : string) : bool := PyStr.all_chars is_ascii s.

(** A text of ASCII characters and rupee signs.  The rupee sign is no
    digit, no blank and no letter, so the same holds of such a text. *)
Fixpoint plain_from (skip : nat) (s : string) : bool :=
  match s with
  | EmptyString => (skip =? 0)%nat
  | String c r =>
      match skip with
      | S k => plain_from k r
      | O => if is_ascii c then plain_from 0 r
             else prefix "₹" s && plain_from 2 r
      end
  end.

Definition plain_text (s : string) : bool := plain_from 0 s.

End TextDomain.

(** ** Data *)

(** The dictionary [property_data] an adapter fills for one listing, and
    equally one row of [self.all_data]: [add_property] appends, to the
    column named [K], [property_data.get(K.lower().replace(" ", "_"))],
    and every one of the nineteen column names is carried onto the key of
    the same field below.  A key that was never bound reads as [None]
    through [.get], so an unbound key and a key bound to [None] are one
    case.  The columns always have equal length, hence the table is held
    as the list of its rows. *)
Record property_data : Type := {
  source : option string;
  property : option string;
  project : option string;
  builder : option string;
  preferred_builder : option string;
  bhk : option string;
  rating : option string;
  places_nearby : option string;
  price : option string;
  price_numeric : option pyfloat;
  price_per_sqft : option string;
  area : option string;
  area_in_sqft : option string;
  area_in_sqm : option string;
  description : option string;
  posted_date : option string;
  posted_by : option string;
  rera : option string;
  property_url : option string
}.

(** [property_data = {}]. *)
Definition empty_data : property_data :=
  {| source := None; property := None; project := None; builder := None;
     preferred_builder := None; bhk := None; rating := None;
     places_nearby := None; price := None; price_numeric := None;
     price_per_sqft := None; area := None; area_in_sqft := None;
     area_in_sqm := None; description := None; posted_date := None;
     posted_by := None; rera := None; property_url := None |}.

Definition set_source (v : option string) (d : property_data) : property_data :=
  {| source := v; property := property d; project := project d;
     builder := builder d; preferred_builder := preferred_builder d;
     bhk := bhk d; rating := rating d; places_nearby := places_nearby d;
     price := price d; price_numeric := price_numeric d;
     price_per_sqft := price_per_sqft d; area := area d;
     area_in_sqft := area_in_sqft d; area_in_sqm := area_in_sqm d;
     description := description d; posted_date := posted_date d;
     posted_by := posted_by d; rera := rera d;
     property_url := property_url d |}.

Definition set_bhk (v : option string) (d : property_data) : property_data :=
  {| source := source d; property := property d; project := project d;
     builder := builder d; preferred_builder := preferred_builder d;
     bhk := v; rating := rating d; places_nearby := places_nearby d;
     price := price d; price_numeric := price_numeric d;
     price_per_sqft := price_per_sqft d; area := area d;
     area_in_sqft := area_in_sqft d; area_in_sqm := area_in_sqm d;
     description := description d; posted_date := posted_date d;
     posted_by := posted_by d; rera := rera d;
     property_url := property_url d |}.

Definition set_rera (v : option string) (d : property_data) : property_data :=
  {| source := source d; property := property d; project := project d;
     builder := builder d; preferred_builder := preferred_builder d;
     bhk := bhk d; rating := rating d; places_nearby := places_nearby d;
     price := price d; price_numeric := price_numeric d;
     price_per_sqft := price_per_sqft d; area := area d;
     area_in_sqft := area_in_sqft d; area_in_sqm := area_in_sqm d;
     description := description d; posted_date := posted_date d;
     posted_by := posted_by d; rera := v;
     property_url := property_url d |}.

Definition set_preferred_builder (v : option string) (d : property_data)
  : property_data :=
  {| source := source d; property := property d; project := project d;
     builder := builder d; preferred_builder := v;
     bhk := bhk d; rating := rating d; places_nearby := places_nearby d;
     price := price d; price_numeric := price_numeric d;
     price_per_sqft := price_per_sqft d; area := area d;
     area_in_sqft := area_in_sqft d; area_in_sqm := area_in_sqm d;
     description := description d; posted_date := posted_date d;
     posted_by := posted_by d; rera := rera d;
     property_url := property_url d |}.

(** The fields of a [PropertyFinder] instance that the pipeline reads or
    writes; the driver handle is part of the environment below. *)
Record PropertyFinder : Type := {
  bedrooms : list string;
  budget_max : Z;
  rera_req : string;
  preferred_only : bool;
  all_data : list property_data
}.

Definition set_all_data (rows : list property_data) (self : PropertyFinder)
  : PropertyFinder :=
  {| bedrooms := bedrooms self; budget_max := budget_max self;
     rera_req := rera_req self; preferred_only := preferred_only self;
     all_data := rows |}.

Definition set_rera_req (v : string) (self : PropertyFinder) : PropertyFinder :=
  {| bedrooms := bedrooms self; budget_max := budget_max self;
     rera_req := v; preferred_only := preferred_only self;
     all_data := all_data self |}.

Definition preferred_builders : list string :=
  [ "prestige"; "sobha"; "brigade"; "puravankara"; "godrej"; "embassy";
    "l&t"; "l & t"; "salarpuria"; "sattva"; "assetz"; "casagrand" ].

(** [PropertyFinder.__init__] with the keyword arguments the worker
    passes. *)
Definition PropertyFinder_init (budget : Z) (bhks : list string)
  (rera_r : string) (pref : bool) : PropertyFinder :=
  {| bedrooms := bhks; budget_max := budget; rera_req := rera_r;
     preferred_only := pref; all_data := [] |}.

(** Every name an attribute lookup on a [PropertyFinder] instance
    resolves: the instance attributes set by [__init__] and the methods
    of the class. *)
Definition PropertyFinder_attributes : list string :=
  [ "driver_path"; "driver"; "bedrooms"; "budget_max"; "rera_req";
    "preferred_only"; "preferred_builders"; "all_data";
    "__init__"; "setup_driver"; "random_delay"; "extract_price_numeric";
    "extract_bhk"; "check_preferred_builder"; "add_property";
    "validate_property"; "build_99acres_url"; "scrape_99acres";
    "build_magicbricks_url"; "scrape_magicbricks"; "build_housing_url";
    "scrape_housing"; "scrape_all"; "get_results_df" ].

(** The global [scraping_status]. *)
Record scraping_status : Type := {
  running : bool;
  progress : Z;
  message : string;
  current_site : string;
  properties_found : nat;
  results : option (list property_data)
}.

Definition set_running (v : bool) (st : scraping_status) : scraping_status :=
  {| running := v; progress := progress st; message := message st;
     current_site := current_site st;
     properties_found := properties_found st; results := results st |}.

Definition set_progress (v : Z) (st : scraping_status) : scraping_status :=
  {| running := running st; progress := v; message := message st;
     current_site := current_site st;
     properties_found := properties_found st; results := results st |}.

Definition set_message (v : string) (st : scraping_status) : scraping_status :=
  {| running := running st; progress := progress st; message := v;
     current_site := current_site st;
     properties_found := properties_found st; results := results st |}.

Definition set_current_site (v : string) (st : scraping_status)
  : scraping_status :=
  {| running := running st; progress := progress st; message := message st;
     current_site := v;
     properties_found := properties_found st; results := results st |}.

Definition set_properties_found (v : nat) (st : scraping_status)
  : scraping_status :=
  {| running := running st; progress := progress st; message := message st;
     current_site := current_site st;
     properties_found := v; results := results st |}.

Definition set_results (v : option (list property_data)) (st : scraping_status)
  : scraping_status :=
  {| running := running st; progress := progress st; message := message st;
     current_site := current_site st;
     properties_found := properties_found st; results := v |}.

(** ** Field extractors *)

Module Extract.
Import PyStr.

(** One match of [\d+\.?\d*] anchored at the head of [s]: the matched
    numeral.  Every quantifier is greedy and the pattern ends there, so
    no backtracking takes place. *)
Definition number_at (s : string) : option string :=
  let (ip, r) := span_digits s in
  match ip with
  | EmptyString => None
  | _ =>
      match r with
      | String "." r' => let (fp, _) := span_digits r' in Some (ip ++ "." ++ fp)
      | _ => Some ip
      end
  end.

(** [re.findall] with that pattern, reduced to what the caller uses:
    [None] when the list of matches is empty, else its element of
    index 0, the leftmost match. *)
Fixpoint first_number (s : string) : option string :=
  match number_at s with
  | Some tok => Some tok
  | None =>
      match s with
      | EmptyString => None
      | String _ r => first_number r
      end
  end.

(** The text the scale tests and the numeral search run on. *)
Definition clean_price (price_text : string) : string :=
  strip (replace "rs" "" (replace "₹" "" (replace "," "" (lower price_text)))).

Definition fmul (x : pyfloat) (k : Z) : pyfloat := Binary64.mul_int x k.

Definition extract_price_numeric (price_text : option string)
  : result (option pyfloat) :=
  match price_text with
  | None => Ok None
  | Some EmptyString => Ok None
  | Some t =>
      let price_text := clean_price t in
      match first_number price_text with
      | None => Ok None
      | Some tok =>
          value <- float tok ;;
          if contains "crore" price_text || contains "cr" price_text
          then Ok (Some (fmul value 10000000))
          else if contains "lakh" price_text || contains "lac" price_text
          then Ok (Some (fmul value 100000))
          else if contains "k" price_text
          then Ok (Some (fmul value 1000))
          else Ok (Some value)
      end
  end.

(** One match of [(\d+)\s*(?:bhk|bedroom|bh)] anchored at the head of
    [s]: its group 1.  The digits and the blanks are taken greedily; a
    shorter choice leaves a digit or a blank where the letter [b] is
    required, so backtracking never finds a match the greedy choice
    misses. *)
Definition bhk_at (s : string) : option string :=
  let (d, r) := span_digits s in
  match d with
  | EmptyString => None
  | _ =>
      let r' := lstrip r in
      if prefix "bhk" r' || prefix "bedroom" r' || prefix "bh" r'
      then Some d else None
  end.

(** [re.search]: the leftmost position with a match. *)
Fixpoint bhk_search (s : string) : option string :=
  match bhk_at s with
  | Some g => Some g
  | None =>
      match s with
      | EmptyString => None
      | String _ r => bhk_search r
      end
  end.

Definition extract_bhk (text : option string) : option string :=
  match text with
  | None => None
  | Some EmptyString => None
  | Some t => bhk_search (lower t)
  end.

(** No text, or a non-empty run of decimal digits. *)
Definition digit_text (v : option string) : Prop :=
  v = None
  \/ exists g, v = Some g /\ g <> EmptyString /\ all_digits g = true.

Definition check_preferred_builder (text : option string) : bool :=
  match text with
  | None => false
  | Some EmptyString => false
  | Some t => existsb (fun b => contains b (lower t)) preferred_builders
  end.

End Extract.

(** ** The pattern of the bedroom count, as a relation *)

Module BhkSpec.

Definition words : list string := ["bhk"; "bedroom"; "bh"].

(** [s] starts with a match of the pattern whose group 1 is [g]: a
    non-empty run of digits, then blanks, if any, then one of the
    three words. *)
Definition matches_here (s g : string) : Prop :=
  g <> EmptyString /\ PyStr.all_digits g = true
  /\ exists ws word rest,
       PyStr.all_spaces ws = true /\ In word words
       /\ s = g ++ ws ++ word ++ rest.

(** [g] is group 1 of the leftmost match in [s]: there is a match at
    the end of [pre], and none at any place inside [pre]. *)
Definition first_match (s g : string) : Prop :=
  exists pre tail,
    s = pre ++ tail /\ matches_here tail g
    /\ forall pre1 pre2 g',
         pre = pre1 ++ pre2 -> pre2 <> EmptyString ->
         ~ matches_here (pre2 ++ tail) g'.

End BhkSpec.

(** ** The vocabulary of the specification's price rule *)

Module PriceSpec.

(** A numeral [digits] or [digits.digits]. *)
Definition numeral (ip : string) (fp : option string) : string :=
  match fp with
  | Some f => ip ++ "." ++ f
  | None => ip
  end.

Definition fraction (fp : option string) : string :=
  match fp with
  | Some f => f
  | None => EmptyString
  end.



(** The factor the code applies: the first marker found anywhere in
    the cleaned text. *)
Definition marker_scale (cleaned : string) : Z :=
  if PyStr.contains "crore" cleaned || PyStr.contains "cr" cleaned
  then 10000000
  else if PyStr.contains "lakh" cleaned || PyStr.contains "lac" cleaned
  then 100000
  else if PyStr.contains "k" cleaned then 1000
  else 1.

(** What the code returns for the float [v] of the numeral and the
    factor [k]: [v] itself when no marker was found, else the product. *)
Definition scale_value (v : pyfloat) (k : Z) : pyfloat :=
  if (k =? 1)%Z then v else Extract.fmul v k.

(** Characters of a numeral and of the blanks after it. *)
Definition plain (c : ascii) : bool :=
  PyStr.is_digit c || PyStr.is_space c || Ascii.eqb c ".".


End PriceSpec.

(** ** Validation *)

Module Validate.

(** [x > self.budget_max] for a float [x] and an int bound. *)
Definition exceeds (x : pyfloat) (bound : Z) : bool :=
  Binary64.gt_int x bound.

(** Truthiness of a possibly-[None] float. *)
Definition truthy_float (x : option pyfloat) : bool :=
  match x with
  | None => false
  | Some q => Binary64.nonzero q
  end.

Definition truthy_int (n : Z) : bool := negb (Z.eqb n 0).

(** [x in self.bedrooms] for a string [x]. *)
Definition in_bedrooms (x : string) (l : list string) : bool :=
  existsb (String.eqb x) l.

(** The three guards of [validate_property], each the condition under
    which its [return False] is reached. *)
Definition price_check (self : PropertyFinder) (d : property_data) : bool :=
  if truthy_int (budget_max self) && truthy_float (price_numeric d)
  then match price_numeric d with
       | Some x => exceeds x (budget_max self)
       | None => false
       end
  else false.

Definition bhk_check (self : PropertyFinder) (d : property_data) : bool :=
  PyStr.truthy (bhk d)
  && match bhk d with
     | Some b => negb (in_bedrooms b (bedrooms self))
     | None => false
     end.

Definition preferred_check (self : PropertyFinder) (d : property_data)
  : bool :=
  preferred_only self
  && match preferred_builder d with
     | Some v => negb (String.eqb v "⭐ YES")
     | None => true
     end.

Definition validate_property (self : PropertyFinder) (d : property_data)
  : bool :=
  if price_check self d then false
  else if bhk_check self d then false
  else if preferred_check self d then false
  else true.

End Validate.

(** ** The worker's state and its monad *)

(** What the worker thread mutates: the finder instance and the global
    status.  A computation takes the state, and gives back a value or an
    exception together with the state reached: what was written before an
    exception was raised stays written. *)
Record world : Type := {
  finder : PropertyFinder;
  status : scraping_status
}.

Definition M (A : Type) : Type := world -> result A * world.

Definition ret {A : Type} (a : A) : M A := fun w => (Ok a, w).

Definition raise {A : Type} (e : exn) : M A := fun w => (Raise e, w).

Definition bindM {A B : Type} (m : M A) (k : A -> M B) : M B :=
  fun w =>
    match m w with
    | (Ok a, w') => k a w'
    | (Raise e, w') => (Raise e, w')
    end.

Notation "x <~ m ;; k" := (bindM m (fun x => k))
  (at level 61, m at next level, right associativity).

(** [try: m  except Exception: h]. *)
Definition try_except {A : Type} (m : M A) (h : exn -> M A) : M A :=
  fun w =>
    match m w with
    | (Ok a, w') => (Ok a, w')
    | (Raise e, w') => h e w'
    end.

(** [try: m  finally: f]. *)
Definition try_finally {A : Type} (m : M A) (f : M unit) : M A :=
  fun w =>
    match m w with
    | (r, w') =>
        match f w' with
        | (Ok _, w'') => (r, w'')
        | (Raise e, w'') => (Raise e, w'')
        end
    end.

Definition lift {A : Type} (r : result A) : M A := fun w => (r, w).

Definition read_self : M PropertyFinder := fun w => (Ok (finder w), w).

Definition read_status : M scraping_status := fun w => (Ok (status w), w).

Definition modify_self (f : PropertyFinder -> PropertyFinder) : M unit :=
  fun w => (Ok tt, {| finder := f (finder w); status := status w |}).

Definition modify_status (f : scraping_status -> scraping_status) : M unit :=
  fun w => (Ok tt, {| finder := finder w; status := f (status w) |}).

Definition string_of_nat (n : nat) : string :=
  NilEmpty.string_of_uint (Nat.to_uint n).

(** What the route [stop_scraping] does to the status. *)
Definition stop_status (st : scraping_status) : scraping_status :=
  if running st
  then set_message "Search stopped by user" (set_running false st)
  else st.

(** A stop request served while the worker is busy: [arrived] tells
    whether one came in since the worker last read the flag. *)
Definition interrupt (arrived : bool) : M unit :=
  if arrived then modify_status stop_status else ret tt.

(** *** Steps that add no record *)

(** Two states with the same finder and the same accumulated
    results. *)
Definition same_store (w w' : world) : Prop :=
  finder w' = finder w /\ results (status w') = results (status w).

(** A step that ends normally and adds no record. *)
Definition keeps (m : M unit) : Prop :=
  forall w, exists w', m w = (Ok tt, w') /\ same_store w w'.

(** A step that adds no record, however it ends. *)
Definition preserves {A : Type} (m : M A) : Prop :=
  forall w, same_store w (snd (m w)).

(** ** Adding a record *)

Module Store.

(** The body of [add_property(self, source, property_data)]. *)
Definition add_property (src : string) (d : property_data) : M unit :=
  _ <~ modify_self (fun self => set_all_data (all_data self ++ [d])%list self) ;;
  let new_prop := set_source (Some src) d in
  st <~ read_status ;;
  match results st with
  | Some rs => modify_status (set_results (Some (rs ++ [new_prop])%list))
  | None => raise (AttributeError "append")
  end.

(** The two shapes in which the source calls the method. *)
Inductive add_property_args : Type :=
| Args2 (src : string) (d : property_data)
| Args1 (d : property_data).

(** Binding the positional arguments of a call to the two parameters
    [source] and [property_data]. *)
Definition call_add_property (args : add_property_args) : M unit :=
  match args with
  | Args2 src d => add_property src d
  | Args1 _ =>
      raise (TypeError
        "add_property() missing 1 required positional argument: 'property_data'")
  end.

(** The attribute lookup [self.name]. *)
Definition lookup_attribute (name : string) : result unit :=
  if existsb (String.eqb name) PropertyFinder_attributes
  then Ok tt
  else Raise (AttributeError name).

(** [self.is_preferred_builder(text)]: the lookup of the method comes
    first, the call after it.  The class has no attribute of that name
    (the method it defines is [check_preferred_builder]), so the lookup
    raises and the second line below is never reached. *)
Definition call_is_preferred_builder (text : option string)
  : result (option string) :=
  _ <- lookup_attribute "is_preferred_builder" ;;
  Ok (Some (if Extract.check_preferred_builder text then "True" else "False")).

End Store.

(** ** What the browser returns *)

(** The sub-fragments the 99acres adapter selects in one listing box:
    the [.text] of each element found, [None] where the selector finds
    nothing. *)
Record box_99acres : Type := {
  title_99 : option string;
  project_99 : option string;
  price_99 : option string;
  area_99 : option string;
  desc_99 : option string;
  rera_99 : bool;
  (** the link picked by [select_one], with its [href] if it has one *)
  link_99 : option (option string);
  (** the [href] of the first anchor that has one *)
  anchor_99 : option string
}.

Record box_magicbricks : Type := {
  title_mb : option string;
  society_mb : option string;
  price_mb : option string;
  (** the text of the summary value the area loop stops at *)
  area_mb : option string;
  rera_mb : bool;
  (** the [href] of every anchor of the card that has one, in order *)
  links_mb : list string
}.

Record box_housing : Type := {
  title_h : option string;
  subtitle_h : option string;
  price_h : option string;
  area_h : option string;
  rera_h : bool;
  link_h : option (option string)
}.

(** One result page: fetching or parsing it raised, or it gave the
    listing boxes; each box comes with the stop request, if any, that
    arrived before the loop reached it. *)
Record page (B : Type) : Type := {
  stop_before : bool;
  fetched : result (list (bool * B))
}.

Arguments stop_before {B} p.
Arguments fetched {B} p.

Record browser : Type := {
  setup_driver : result unit;
  get_99acres : nat -> page box_99acres;
  get_magicbricks : nat -> page box_magicbricks;
  get_housing : nat -> page box_housing;
  (** stop requests arriving between two sites *)
  stop_after_99acres : bool;
  stop_after_magicbricks : bool
}.

(** ** Site adapters *)

(** The loop every adapter runs over the boxes of a page:
    [for prop in property_boxes: if not running: break; try: body
    except Exception: continue]. *)
Fixpoint for_boxes {B : Type} (body : B -> M unit) (boxes : list (bool * B))
  : M unit :=
  match boxes with
  | [] => ret tt
  | (stop, prop) :: rest =>
      _ <~ interrupt stop ;;
      st <~ read_status ;;
      if negb (running st) then ret tt
      else
        _ <~ try_except (body prop) (fun _ => ret tt) ;;
        for_boxes body rest
  end.

Definition rera_text (found : bool) : option string :=
  Some (if found then "Yes" else "Not Mentioned").

Module Acres99.
Import PyStr.

Definition bhk_found (text_for_bhk : string) : string :=
  if contains "1 bhk" text_for_bhk || contains "1bhk" text_for_bhk then "1"
  else if contains "2 bhk" text_for_bhk || contains "2bhk" text_for_bhk then "2"
  else if contains "3 bhk" text_for_bhk || contains "3bhk" text_for_bhk then "3"
  else if contains "4 bhk" text_for_bhk || contains "4bhk" text_for_bhk then "4"
  else "Unknown".

Definition url (prop : box_99acres) : option string :=
  let link :=
    match link_99 prop with
    | Some l => Some l
    | None => option_map Some (anchor_99 prop)
    end in
  match link with
  | Some (Some href) =>
      if truthy (Some href)
      then Some (if startswith href "http" then href
                 else "https://www.99acres.com" ++ href)
      else None
  | _ => None
  end.

(** The dictionary as it stands once ["source"] is set, or [None] when
    the client-side budget filter skips the listing. *)
Definition fill (self : PropertyFinder) (prop : box_99acres)
  : result (option property_data) :=
  let title :=
    match title_99 prop with
    | Some t => strip t
    | None => "Unknown Property"
    end in
  let proj := option_map strip (project_99 prop) in
  let price_text := option_map strip (price_99 prop) in
  pn <- Extract.extract_price_numeric price_text ;;
  if Validate.truthy_int (budget_max self) && Validate.truthy_float pn
     && match pn with
        | Some x => Validate.exceeds x (budget_max self)
        | None => false
        end
  then Ok None
  else
    let area_text := option_map strip (area_99 prop) in
    let desc :=
      match desc_99 prop with
      | Some t => strip t
      | None => title
      end in
    let text_for_bhk := lower (title ++ " " ++ desc) in
    Ok (Some
      {| source := Some "99acres"; property := Some title; project := proj;
         builder := proj; preferred_builder := None;
         bhk := Some (bhk_found text_for_bhk); rating := None;
         places_nearby := None; price := price_text; price_numeric := pn;
         price_per_sqft := None; area := area_text;
         area_in_sqft := area_text; area_in_sqm := None;
         description := Some desc; posted_date := None; posted_by := None;
         rera := rera_text (rera_99 prop); property_url := url prop |}).

(** The body of the [try] of the box loop. *)
Definition listing (prop : box_99acres) : M unit :=
  self <~ read_self ;;
  filled <~ lift (fill self prop) ;;
  match filled with
  | None => ret tt
  | Some d =>
      pb <~ (if truthy (builder d)
             then lift (Store.call_is_preferred_builder (builder d))
             else ret (Some "No")) ;;
      Store.call_add_property (Store.Args1 (set_preferred_builder pb d))
  end.

Fixpoint scrape_pages (get : nat -> page box_99acres)
  (max_pages page_no remaining : nat) : M unit :=
  match remaining with
  | O => ret tt
  | S k =>
      _ <~ interrupt (stop_before (get page_no)) ;;
      st <~ read_status ;;
      if negb (running st) then ret tt
      else
        _ <~ modify_status
               (set_message ("Scraping 99acres page " ++ string_of_nat page_no
                             ++ "/" ++ string_of_nat max_pages)) ;;
        _ <~ try_except
               (boxes <~ lift (fetched (get page_no)) ;;
                for_boxes listing boxes)
               (fun _ => ret tt) ;;
        scrape_pages get max_pages (S page_no) k
  end.

Definition scrape_99acres (get : nat -> page box_99acres) (max_pages : nat)
  : M unit :=
  _ <~ modify_status (set_current_site "99acres") ;;
  scrape_pages get max_pages 1 max_pages.

End Acres99.

(** The statements both other adapters end a listing with. *)
Definition validate_and_add (site : string) (d : property_data) : M unit :=
  self <~ read_self ;;
  if Validate.validate_property self d
  then
    _ <~ Store.call_add_property (Store.Args2 site d) ;;
    self' <~ read_self ;;
    modify_status (set_properties_found (List.length (all_data self')))
  else ret tt.

(** The page loop both other adapters run: an empty page ends the
    source, a page that raises is skipped. *)
Fixpoint scrape_pages_until_empty {B : Type} (label : string)
  (listing : B -> M unit) (get : nat -> page B)
  (max_pages page_no remaining : nat) : M unit :=
  match remaining with
  | O => ret tt
  | S k =>
      _ <~ interrupt (stop_before (get page_no)) ;;
      st <~ read_status ;;
      if negb (running st) then ret tt
      else
        _ <~ modify_status
               (set_message ("Scraping " ++ label ++ " page "
                             ++ string_of_nat page_no
                             ++ "/" ++ string_of_nat max_pages)) ;;
        stop <~ try_except
                  (boxes <~ lift (fetched (get page_no)) ;;
                   match boxes with
                   | [] => ret true
                   | _ => _ <~ for_boxes listing boxes ;; ret false
                   end)
                  (fun _ => ret false) ;;
        if (stop : bool) then ret tt
        else scrape_pages_until_empty label listing get max_pages (S page_no) k
  end.

Definition star_yes (is_preferred : bool) : option string :=
  Some (if is_preferred then "⭐ YES" else "No").

Module MagicBricks.
Import PyStr.

Definition url (prop : box_magicbricks) : option string :=
  let links := links_mb prop in
  let found :=
    find (fun h => contains "property-detail" h || contains "/buy/" h) links in
  let prop_link :=
    if truthy found then found
    else match links with
         | h :: _ => Some h
         | [] => found
         end in
  match prop_link with
  | Some l =>
      if truthy prop_link
      then Some (if startswith l "http" then l
                 else "https://www.magicbricks.com" ++ l)
      else None
  | None => None
  end.

Definition fill (prop : box_magicbricks) : result property_data :=
  let title := option_map strip (title_mb prop) in
  let proj := option_map strip (society_mb prop) in
  let price_text := option_map strip (price_mb prop) in
  pn <- Extract.extract_price_numeric price_text ;;
  let area_text := option_map strip (area_mb prop) in
  Ok {| source := None; property := title; project := proj;
        builder := proj;
        preferred_builder := star_yes (Extract.check_preferred_builder proj);
        bhk := Extract.extract_bhk (Some (str title)); rating := None;
        places_nearby := None; price := price_text; price_numeric := pn;
        price_per_sqft := None; area := area_text;
        area_in_sqft := area_text; area_in_sqm := None;
        description := None; posted_date := None; posted_by := None;
        rera := rera_text (rera_mb prop); property_url := url prop |}.

Definition listing (prop : box_magicbricks) : M unit :=
  d <~ lift (fill prop) ;;
  validate_and_add "MagicBricks" d.

Definition scrape_magicbricks (get : nat -> page box_magicbricks)
  (max_pages : nat) : M unit :=
  _ <~ modify_status (set_current_site "MagicBricks") ;;
  scrape_pages_until_empty "MagicBricks" listing get max_pages 1 max_pages.

End MagicBricks.

Module Housing.
Import PyStr.

Definition url (prop : box_housing) : option string :=
  match link_h prop with
  | Some (Some href) =>
      if truthy (Some href)
      then Some (if startswith href "/" then "https://housing.com" ++ href
                 else href)
      else None
  | _ => None
  end.

Definition fill (prop : box_housing) : result property_data :=
  let title := option_map strip (title_h prop) in
  let bld := option_map strip (subtitle_h prop) in
  let price_text := option_map strip (price_h prop) in
  pn <- Extract.extract_price_numeric price_text ;;
  let area_text := option_map strip (area_h prop) in
  Ok {| source := None; property := title; project := bld;
        builder := bld;
        preferred_builder := star_yes (Extract.check_preferred_builder bld);
        bhk := Extract.extract_bhk (Some (str title)); rating := None;
        places_nearby := None; price := price_text; price_numeric := pn;
        price_per_sqft := None; area := area_text;
        area_in_sqft := area_text; area_in_sqm := None;
        description := None; posted_date := None; posted_by := None;
        rera := rera_text (rera_h prop); property_url := url prop |}.

Definition listing (prop : box_housing) : M unit :=
  d <~ lift (fill prop) ;;
  validate_and_add "Housing.com" d.

Definition scrape_housing (get : nat -> page box_housing) (max_pages : nat)
  : M unit :=
  _ <~ modify_status (set_current_site "Housing.com") ;;
  scrape_pages_until_empty "Housing.com" listing get max_pages 1 max_pages.

End Housing.

(** ** Orchestration *)

(** [sites.get(name, True)] on the dictionary of site switches. *)
Fixpoint sites_get (sites : list (string * bool)) (name : string) : bool :=
  match sites with
  | [] => true
  | (k, v) :: rest => if String.eqb k name then v else sites_get rest name
  end.

Definition when (c : bool) (m : M unit) : M unit := if c then m else ret tt.

Definition scrape_all (br : browser) (pages_per_site : nat)
  (sites : list (string * bool)) : M unit :=
  _ <~ lift (setup_driver br) ;;
  try_finally
    (st <~ read_status ;;
     _ <~ when (sites_get sites "99acres" && running st)
            (Acres99.scrape_99acres (get_99acres br) pages_per_site) ;;
     _ <~ interrupt (stop_after_99acres br) ;;
     st <~ read_status ;;
     _ <~ when (sites_get sites "magicbricks" && running st)
            (MagicBricks.scrape_magicbricks (get_magicbricks br) pages_per_site) ;;
     _ <~ interrupt (stop_after_magicbricks br) ;;
     st <~ read_status ;;
     when (sites_get sites "housing" && running st)
       (Housing.scrape_housing (get_housing br) pages_per_site))
    (ret tt).

(** ** Aggregation *)

Module Aggregate.

Definition option_eqb (a b : option string) : bool :=
  match a, b with
  | Some x, Some y => String.eqb x y
  | None, None => true
  | _, _ => false
  end.

(** Equality on the subset [["Property", "Price"]]; pandas counts two
    missing values as equal when it looks for duplicates. *)
Definition same_key (a b : property_data) : bool :=
  option_eqb (property a) (property b) && option_eqb (price a) (price b).

(** [df.drop_duplicates(subset=..., keep="first")]: a row is dropped
    when a row before it has the same key. *)
Fixpoint drop_from (seen rows : list property_data) : list property_data :=
  match rows with
  | [] => []
  | r :: rest =>
      if existsb (same_key r) seen then drop_from seen rest
      else r :: drop_from (r :: seen) rest
  end.

Definition drop_duplicates (rows : list property_data) : list property_data :=
  drop_from [] rows.

(** The column [Sort_Preferred]. *)
Definition sort_preferred (r : property_data) : nat :=
  if PyStr.contains "⭐" (PyStr.str (preferred_builder r)) then 0 else 1.

(** Ascending order on [Price Numeric] with missing values last. *)
Definition price_le (a b : option pyfloat) : bool :=
  match a, b with
  | Some x, Some y => Binary64.leb x y
  | Some _, None => true
  | None, Some _ => false
  | None, None => true
  end.

(** Whether the [Preferred Builder] cell shows the star. *)
Definition starred (r : property_data) : bool :=
  PyStr.contains "⭐" (PyStr.str (preferred_builder r)).

(** The lexicographic order on [(Sort_Preferred, Price Numeric)]. *)
Definition key_le (a b : property_data) : bool :=
  (sort_preferred a <? sort_preferred b)%nat
  || ((sort_preferred a =? sort_preferred b)%nat
      && price_le (price_numeric a) (price_numeric b)).

(** [df.sort_values(by=[...], ascending=[True, True])].  On several
    columns pandas sorts through a lexicographic indexer, which keeps
    rows of equal keys in their order and puts missing values last;
    here, insertion from the right, each row going before the first
    row that is not below it. *)
Fixpoint insert (r : property_data) (l : list property_data)
  : list property_data :=
  match l with
  | [] => [r]
  | x :: t => if key_le r x then r :: l else x :: insert r t
  end.

Fixpoint sort_values (l : list property_data) : list property_data :=
  match l with
  | [] => []
  | r :: t => insert r (sort_values t)
  end.

Definition get_results_df (self : PropertyFinder) : list property_data :=
  match all_data self with
  | [] => []
  | rows => sort_values (drop_duplicates rows)
  end.

Definition ordered (a b : property_data) : Prop := key_le a b = true.

(** The first row of [rows] with the key of [k], if any. *)
Definition first_with_key (k : property_data) (rows : list property_data)
  : list property_data :=
  match find (same_key k) rows with
  | Some r => [r]
  | None => []
  end.

(** Two rows no sort key tells apart. *)
Definition same_sort_key (a b : property_data) : bool :=
  key_le a b && key_le b a.

End Aggregate.

(** ** Routes *)

Module Routes.

Inductive payload : Type :=
| JsonError (msg : string)
| JsonStatus (st : string)
| JsonImported (count : nat) (rows : list property_data)
| Attachment (filename : string) (bytes : string).

Record response : Type := {
  code : nat;
  body : payload
}.

(** The JSON body of a start request; [None] is an absent key. *)
Record start_request : Type := {
  req_pages : option Z;
  req_bhk : option (string + list string);
  req_budget : option Z;
  req_rera : option string;
  req_preferred : option bool;
  req_sites : option (list (string * bool))
}.

(** What [scrape_thread] captures from [start_scraping]. *)
Record job : Type := {
  pages : Z;
  job_budget_max : Z;
  job_bhk : list string;
  job_rera : string;
  job_preferred : bool;
  job_sites : list (string * bool)
}.

Definition get_default {A : Type} (v : option A) (d : A) : A :=
  match v with
  | Some a => a
  | None => d
  end.

(** [s.split(",")]. *)
Fixpoint split_comma (cur : string) (s : string) : list string :=
  match s with
  | EmptyString => [cur]
  | String c r =>
      if Ascii.eqb c ","%char then cur :: split_comma EmptyString r
      else split_comma (cur ++ String c EmptyString) r
  end.

Definition fresh_status : scraping_status :=
  {| running := true; progress := 0; message := "Starting scraper...";
     current_site := ""; properties_found := 0; results := None |}.

(** The request-serving part of [start_scraping]: the response, the
    status it leaves, and the job handed to the worker thread. *)
Definition start_scraping (data : start_request) (st : scraping_status)
  : response * scraping_status * option job :=
  if running st
  then ({| code := 400; body := JsonError "Scraping already in progress" |},
        st, None)
  else
    let pages := get_default (req_pages data) 5%Z in
    let budget_max := (get_default (req_budget data) 80 * 100000)%Z in
    let bhk :=
      match get_default (req_bhk data) (inr ["2"; "3"]) with
      | inl text => split_comma EmptyString text
      | inr l => l
      end in
    let rera := get_default (req_rera data) "Yes" in
    let preferred := get_default (req_preferred data) false in
    let sites :=
      get_default (req_sites data)
        [("99acres", true); ("magicbricks", true); ("housing", true)] in
    ({| code := 200; body := JsonStatus "started" |},
     fresh_status,
     Some {| pages := pages; job_budget_max := budget_max; job_bhk := bhk;
             job_rera := rera; job_preferred := preferred;
             job_sites := sites |}).

(** [str(e)]. *)
Definition exn_text (e : exn) : string :=
  match e with
  | TypeError m => m
  | AttributeError a => "object has no attribute '" ++ a ++ "'"
  | NameError n => "name '" ++ n ++ "' is not defined"
  | ValueError m => m
  | ParserError m => m
  | WebDriverException m => m
  end.

(** The finder the worker creates from the captured values. *)
Definition make_finder (j : job) : PropertyFinder :=
  PropertyFinder_init (job_budget_max j) (job_bhk j) (job_rera j)
    (job_preferred j).

(** The worker: the status [scrape_thread] leaves when it ends. *)
Definition scrape_thread (br : browser) (j : job) (st : scraping_status)
  : scraping_status :=
  let st0 := set_results (Some []) st in
  let self := make_finder j in
  let work :=
    try_finally
      (try_except
         (_ <~ scrape_all br (Z.to_nat (pages j)) (job_sites j) ;;
          self' <~ read_self ;;
          let df := Aggregate.get_results_df self' in
          _ <~ modify_status (set_results (Some df)) ;;
          _ <~ modify_status
                 (set_message ("Completed! Found "
                               ++ string_of_nat (List.length df)
                               ++ " properties")) ;;
          modify_status (set_progress 100))
         (fun e => modify_status (set_message ("Error: " ++ exn_text e))))
      (modify_status (set_running false)) in
  status (snd (work {| finder := self; status := st0 |})).

(** The names bound at module level: the imports, the assignments,
    the functions and the class defined, and the file handle of the
    main block. *)
Definition module_globals : list string :=
  [ "pd"; "time"; "random"; "BeautifulSoup"; "webdriver"; "Service";
    "Options"; "By"; "WebDriverWait"; "EC"; "re"; "os"; "Flask";
    "render_template"; "request"; "jsonify"; "send_file"; "redirect";
    "url_for"; "Thread"; "json"; "datetime"; "ProxyRequests";
    "PROXY_AVAILABLE"; "app"; "scraping_status"; "PropertyFinder";
    "index"; "start_scraping"; "get_status"; "stop_scraping";
    "view_results"; "export_csv"; "import_csv_route";
    "get_index_template"; "f" ].

(** Resolving a name that no local scope binds. *)
Definition lookup_global (name : string) : result unit :=
  if existsb (String.eqb name) module_globals then Ok tt
  else Raise (NameError name).

(** [not scraping_status["results"]]. *)
Definition no_results (st : scraping_status) : bool :=
  match results st with
  | None => true
  | Some [] => true
  | Some _ => false
  end.

(** The route [export_csv], statement by statement; a name is looked
    up when the statement that mentions it runs. *)
Definition export_csv (st : scraping_status) : result response :=
  if no_results st
  then Ok {| code := 400; body := JsonError "No results to export" |}
  else
    _ <- lookup_global "io" ;;
    _ <- lookup_global "csv" ;;
    if no_results st
    then Ok {| code := 400; body := JsonError "No data" |}
    else
      _ <- lookup_global "output" ;;
      _ <- lookup_global "filename" ;;
      Ok {| code := 200; body := Attachment EmptyString EmptyString |}.

(** The uploaded part of an import request. *)
Record upload : Type := {
  filename : option string;
  content : string
}.

Section CsvImport.

(** pandas, as far as the route uses it: [pd.read_csv] on the bytes
    of the upload, [fillna] and [to_dict("records")]. *)
Variable frame : Type.
Variable read_csv : string -> result frame.
Variable fillna : frame -> frame.
Variable to_records : frame -> list property_data.

(** [request.files.get("file")] is [None] when the form has no such
    part. *)
Definition import_csv_route (file : option upload) (st : scraping_status)
  : result response * scraping_status :=
  match file with
  | None => (Ok {| code := 400; body := JsonError "No file uploaded" |}, st)
  | Some f =>
      match filename f with
      | Some EmptyString =>
          (Ok {| code := 400; body := JsonError "No file selected" |}, st)
      | None =>
          (* [if file:] is false and the statements after the [try]
             run *)
          (Raise (NameError "cw"), st)
      | Some _ =>
          match read_csv (content f) with
          | Raise e =>
              (Ok {| code := 500;
                     body := JsonError ("Failed to parse CSV: " ++ exn_text e) |},
               st)
          | Ok df =>
              let rows := to_records (fillna df) in
              let st1 := set_results (Some rows) st in
              let st2 := set_properties_found (List.length rows) st1 in
              let st3 :=
                set_message ("Imported " ++ string_of_nat (List.length rows)
                             ++ " properties from CSV") st2 in
              (Ok {| code := 200;
                     body := JsonImported (List.length rows) rows |}, st3)
          end
      end
  end.

End CsvImport.

End Routes.

(** ** Search URLs *)

Module Urls.

(** [sep.join(parts)]. *)
Fixpoint join (sep : string) (parts : list string) : string :=
  match parts with
  | [] => EmptyString
  | [x] => x
  | x :: rest => x ++ sep ++ join sep rest
  end.

Definition base_99acres : string :=
  "https://www.99acres.com/property-in-bangalore-ffid".

Definition base_magicbricks : string :=
  "https://www.magicbricks.com/2-bhk-flats-in-bangalore-for-sale-price-70-lakhs-to-80-lakhs-pppfs".

Definition base_housing : string :=
  "https://housing.com/in/buy/searches/CcP38f9yfbk7p3m2h1fU526n4".

(** A text without any blank. *)
Definition no_space (s : string) : Prop :=
  PyStr.all_chars (fun c => negb (PyStr.is_space c)) s = true.

(** The value of [bedroom_num]: the wanted bedroom counts, each
    stripped, joined by commas. *)
Definition bedroom_str (self : PropertyFinder) : string :=
  join "," (map PyStr.strip (bedrooms self)).

Definition build_99acres_url (self : PropertyFinder) (page_no : nat) : string :=
  let fixed :=
    [ "city=20"; "bedroom_num=" ++ bedroom_str self; "preference=S";
      "area_unit=1"; "res_com=R" ] in
  let paging :=
    if (1 <? page_no)%nat then ["page=" ++ string_of_nat page_no] else [] in
  let params := (fixed ++ paging)%list in
  base_99acres ++ "?" ++ join "&" params.

Definition build_magicbricks_url (page_no : nat) : string :=
  if (1 <? page_no)%nat
  then base_magicbricks ++ "?page=" ++ string_of_nat page_no
  else base_magicbricks.

Definition build_housing_url (page_no : nat) : string :=
  if (1 <? page_no)%nat
  then base_housing ++ "?page=" ++ string_of_nat page_no
  else base_housing.

End Urls.

(** ** What a run keeps true *)

Module RunInvariant.

(** A row that passed [validate_property] and names no source: the
    adapters that add rows never bind the key ["source"]. *)
Definition row_ok (self0 : PropertyFinder) (r : property_data) : Prop :=
  Validate.validate_property self0 r = true /\ source r = None.

(** The criteria of [self0] are those of the finder at work, every row
    added so far is such a row, the live result list exists, and the
    counter of the status is the number of rows. *)
Definition holds (self0 : PropertyFinder) (w : world) : Prop :=
  bedrooms (finder w) = bedrooms self0
  /\ budget_max (finder w) = budget_max self0
  /\ preferred_only (finder w) = preferred_only self0
  /\ Forall (row_ok self0) (all_data (finder w))
  /\ results (status w) <> None
  /\ properties_found (status w) = List.length (all_data (finder w)).

(** A step that ends normally and keeps the invariant. *)
Definition step (self0 : PropertyFinder) (m : M unit) : Prop :=
  forall w, holds self0 w -> exists w', m w = (Ok tt, w') /\ holds self0 w'.

(** A step that keeps the invariant, however it ends. *)
Definition safe {A : Type} (self0 : PropertyFinder) (m : M A) : Prop :=
  forall w, holds self0 w -> holds self0 (snd (m w)).

(** Two browsers that show the same MagicBricks pages up to page [k]. *)
Definition agree_upto {B : Type} (k : nat) (get get' : nat -> page B) : Prop :=
  forall n, (n <= k)%nat -> get n = get' n.

(** No two rows of the list share a (title, price text) key. *)
Fixpoint distinct_keys (rows : list property_data) : Prop :=
  match rows with
  | [] => True
  | r :: rest =>
      existsb (Aggregate.same_key r) rest = false /\ distinct_keys rest
  end.

(** A step that always ends normally. *)
Definition ends (m : M unit) : Prop :=
  forall w, exists w', m w = (Ok tt, w').

(** At most one row for each key. *)
Definition one_per_key (l : list property_data) : Prop :=
  forall k, (List.length (filter (Aggregate.same_key k) l) <= 1)%nat.

End RunInvariant.

(** ** Sample inputs *)

Module Samples.

Definition idle_status : scraping_status :=
  {| running := false; progress := 0; message := "Ready to start";
     current_site := ""; properties_found := 0; results := None |}.

(** A finder looking for 2 or 3 BHK up to 80 lakh. *)
Definition finder_23 : PropertyFinder :=
  PropertyFinder_init 8000000 ["2"; "3"] "Yes" false.

Definition with_title_price (title price_text : string) (pn : option pyfloat)
  : property_data :=
  {| source := None; property := Some title; project := None;
     builder := None; preferred_builder := Some "No"; bhk := None;
     rating := None; places_nearby := None; price := Some price_text;
     price_numeric := pn; price_per_sqft := None; area := None;
     area_in_sqft := None; area_in_sqm := None; description := None;
     posted_date := None; posted_by := None; rera := Some "Not Mentioned";
     property_url := None |}.

Definition listing_unknown_bhk : property_data :=
  set_bhk (Some "Unknown")
    (with_title_price "Flat in Whitefield" "75 Lac" (Some (Finite (7500000 # 1)))).

Definition request_budget_80 : Routes.start_request :=
  {| Routes.req_pages := Some 1%Z; Routes.req_bhk := Some (inr ["2"; "3"]);
     Routes.req_budget := Some 80%Z; Routes.req_rera := Some "Yes";
     Routes.req_preferred := Some false; Routes.req_sites := None |}.

(** A stand-in for pandas that rejects an empty file, as [read_csv]
    does, and reads anything else as an empty table. *)
Definition read_csv_sample (bytes : string) : result (list property_data) :=
  match bytes with
  | EmptyString => Raise (ParserError "No columns to parse from file")
  | _ => Ok []
  end.

Definition empty_upload : Routes.upload :=
  {| Routes.filename := Some "listings.csv"; Routes.content := EmptyString |}.

Definition row_plain_5m : property_data :=
  with_title_price "Flat A" "50 Lac" (Some (Finite (5000000 # 1))).

Definition row_star_9m : property_data :=
  set_preferred_builder (Some "⭐ YES")
    (with_title_price "Flat B" "90 Lac" (Some (Finite (9000000 # 1)))).

Definition row_star_3m : property_data :=
  set_preferred_builder (Some "⭐ YES")
    (with_title_price "Flat C" "30 Lac" (Some (Finite (3000000 # 1)))).

Definition finder_with (rows : list property_data) : PropertyFinder :=
  set_all_data rows finder_23.

Definition row_from (site : string) : property_data :=
  set_source (Some site)
    (with_title_price "Prestige Lakeside" "75 Lac" (Some (Finite (7500000 # 1)))).

(** A MagicBricks card headed "5 BHK Villa", one headed "Studio
    Apartment", and a finder that wants 5 BHK. *)
Definition card (title : string) : box_magicbricks :=
  {| title_mb := Some title; society_mb := Some "Sobha City";
     price_mb := Some "75 Lac"; area_mb := Some "1150 sqft";
     rera_mb := false; links_mb := ["/propertyDetails/1"] |}.

Definition world_wanting (bhks : list string) : world :=
  {| finder := PropertyFinder_init 8000000 bhks "Yes" false;
     status := set_results (Some []) (set_running true idle_status) |}.

(** One 99acres page with one box, and a job with only that site
    switched on. *)
Definition box_99 : box_99acres :=
  {| title_99 := Some "2 BHK Apartment in Whitefield";
     project_99 := Some "Prestige Lakeside Habitat";
     price_99 := Some "75 Lac"; area_99 := Some "1150 sqft";
     desc_99 := None; rera_99 := true;
     link_99 := Some (Some "/2-bhk-whitefield"); anchor_99 := None |}.

(** The same box priced at two crore, above the 80 lakh of
    [finder_23]. *)
Definition box_99_two_crore : box_99acres :=
  {| title_99 := title_99 box_99; project_99 := project_99 box_99;
     price_99 := Some "2 Cr"; area_99 := area_99 box_99;
     desc_99 := desc_99 box_99; rera_99 := rera_99 box_99;
     link_99 := link_99 box_99; anchor_99 := anchor_99 box_99 |}.

(** The dictionary the adapter has filled for that box when it
    reaches the preferred-builder step. *)
Definition record_99 : property_data :=
  Eval cbv in
    match Acres99.fill finder_23 box_99 with
    | Ok (Some d) => d
    | _ => empty_data
    end.

Definition browser_99 : browser :=
  {| setup_driver := Ok tt;
     get_99acres :=
       fun _ => {| stop_before := false; fetched := Ok [(false, box_99)] |};
     get_magicbricks :=
       fun _ => {| stop_before := false; fetched := Ok [] |};
     get_housing :=
       fun _ => {| stop_before := false; fetched := Ok [] |};
     stop_after_99acres := false; stop_after_magicbricks := false |}.

Definition job_only_99acres : Routes.job :=
  {| Routes.pages := 2; Routes.job_budget_max := 8000000;
     Routes.job_bhk := ["2"; "3"]; Routes.job_rera := "Yes";
     Routes.job_preferred := false;
     Routes.job_sites :=
       [("99acres", true); ("magicbricks", false); ("housing", false)] |}.

Definition status_with_one_result : scraping_status :=
  set_results (Some [listing_unknown_bhk]) idle_status.

End Samples.

Module MoreSamples.

(** A start request that sends the bedroom list as text. *)
Definition request_bhk_text : Routes.start_request :=
  {| Routes.req_pages := None; Routes.req_bhk := Some (inl "2,3");
     Routes.req_budget := None; Routes.req_rera := None;
     Routes.req_preferred := None; Routes.req_sites := None |}.

(** Two browsers that show the same first MagicBricks page and an empty
    second page, and differ from the third page on. *)
Definition pages_then (third : list (bool * box_magicbricks)) (n : nat)
  : page box_magicbricks :=
  {| stop_before := false;
     fetched :=
       match n with
       | 0 => Ok []
       | 1 => Ok [(false, Samples.card "2 BHK Flat")]
       | 2 => Ok []
       | _ => Ok third
       end |}.

Definition browser_with (third : list (bool * box_magicbricks)) : browser :=
  {| setup_driver := Ok tt;
     get_99acres := get_99acres Samples.browser_99;
     get_magicbricks := pages_then third;
     get_housing := get_housing Samples.browser_99;
     stop_after_99acres := false; stop_after_magicbricks := false |}.

(** The record the MagicBricks adapter builds for a card. *)
Definition record_mb : property_data :=
  Eval cbv in
    match MagicBricks.fill (Samples.card "2 BHK Flat") with
    | Ok d => d
    | Raise _ => empty_data
    end.

End MoreSamples.

(** * Properties *)

(** Case analysis on every test of a chain of conditionals. *)
Ltac case_ifs :=
  repeat match goal with
         | |- context [if ?b then _ else _] => destruct b
         end.

(** ** Strings *)

Section StringFacts.
Import PyStr.

Lemma digit_not_space (c : ascii) : is_digit c = true -> is_space c = false.
Proof.
  unfold is_digit, is_space; cbv zeta.
  generalize (nat_of_ascii c); intros n H.
  apply andb_true_iff in H as [H1 H2].
  apply Nat.leb_le in H1; apply Nat.leb_le in H2.
  apply orb_false_iff; split; apply andb_false_iff.
  - right; apply Nat.leb_gt; lia.
  - right; apply Nat.leb_gt; lia.
Qed.

Lemma lower_char_fixed (c : ascii) :
  (nat_of_ascii c < 65 \/ 90 < nat_of_ascii c)%nat -> lower_char c = c.
Proof.
  unfold lower_char; cbv zeta; intros H.
  destruct ((65 <=? nat_of_ascii c)%nat && (nat_of_ascii c <=? 90)%nat) eqn:E;
    [| reflexivity].
  apply andb_true_iff in E as [E1 E2].
  apply Nat.leb_le in E1; apply Nat.leb_le in E2; lia.
Qed.

Lemma digit_range (c : ascii) :
  is_digit c = true -> (48 <= nat_of_ascii c <= 57)%nat.
Proof.
  unfold is_digit; cbv zeta; intros H.
  apply andb_true_iff in H as [H1 H2].
  apply Nat.leb_le in H1; apply Nat.leb_le in H2; lia.
Qed.

Lemma space_range (c : ascii) :
  is_space c = true -> (nat_of_ascii c <= 32)%nat.
Proof.
  unfold is_space; cbv zeta; intros H.
  apply orb_true_iff in H as [H | H];
    apply andb_true_iff in H as [H1 H2];
    apply Nat.leb_le in H1; apply Nat.leb_le in H2; lia.
Qed.

Lemma lower_char_digit (c : ascii) : is_digit c = true -> lower_char c = c.
Proof. intros H; apply lower_char_fixed; apply digit_range in H; lia. Qed.

Lemma lower_char_space (c : ascii) : is_space c = true -> lower_char c = c.
Proof. intros H; apply lower_char_fixed; apply space_range in H; lia. Qed.

(** Lower-casing never turns a character into a digit or away from
    one. *)
Lemma is_digit_lower_char (c : ascii) : is_digit (lower_char c) = is_digit c.
Proof.
  destruct c as [[] [] [] [] [] [] [] []]; reflexivity.
Qed.

Lemma has_digit_lower (s : string) : has_digit (lower s) = has_digit s.
Proof.
  induction s as [| c r IH]; simpl; [reflexivity |].
  now rewrite is_digit_lower_char, IH.
Qed.

Lemma has_digit_app (a b : string) :
  has_digit (a ++ b) = has_digit a || has_digit b.
Proof.
  induction a as [| c r IH]; simpl; [reflexivity |].
  now rewrite IH, orb_assoc.
Qed.

Lemma substring_0_0 (s : string) : substring 0 0 s = EmptyString.
Proof. destruct s; reflexivity. Qed.

(** Removing the occurrences of a digit-free word keeps every digit:
    the characters an occurrence makes [replace_from] skip are
    characters of the word. *)
Lemma has_digit_replace_from (old : string) :
  old <> EmptyString -> has_digit old = false ->
  forall s skip,
    has_digit (substring 0 skip s) = false ->
    has_digit (replace_from old EmptyString skip s) = has_digit s.
Proof.
  intros Hne Hold; induction s as [| c r IH]; intros skip Hskip.
  - reflexivity.
  - cbn [replace_from]. destruct skip as [| k].
    + destruct (prefix old (String c r)) eqn:P.
      * apply prefix_correct in P.
        destruct old as [| o olds]; [congruence |].
        cbn [String.length substring] in P.
        injection P as Hc Hrest.
        cbn [has_digit] in Hold.
        apply orb_false_iff in Hold as [Ho Holds].
        assert (HL : String.length (String o olds) - 1 = String.length olds)
          by (cbn [String.length]; lia).
        rewrite HL; cbn [append has_digit].
        rewrite IH by (rewrite Hrest; exact Holds).
        subst o; now rewrite Ho.
      * cbn [has_digit]; f_equal; apply IH.
        now rewrite substring_0_0.
    + cbn [substring has_digit] in Hskip.
      apply orb_false_iff in Hskip as [Hc Hk].
      cbn [has_digit]; rewrite Hc; now apply IH.
Qed.

Lemma has_digit_replace (old s : string) :
  old <> EmptyString -> has_digit old = false ->
  has_digit (replace old EmptyString s) = has_digit s.
Proof.
  intros Hne Hold; unfold replace.
  apply has_digit_replace_from; trivial.
  now rewrite substring_0_0.
Qed.

Lemma has_digit_lstrip (s : string) : has_digit (lstrip s) = has_digit s.
Proof.
  induction s as [| c r IH]; [reflexivity |].
  cbn [lstrip]; destruct (is_space c) eqn:E; [| reflexivity].
  cbn [has_digit]; rewrite IH.
  destruct (is_digit c) eqn:D; [| reflexivity].
  apply digit_not_space in D; congruence.
Qed.

Lemma has_digit_rstrip (s : string) : has_digit (rstrip s) = has_digit s.
Proof.
  induction s as [| c r IH]; [reflexivity |].
  cbn [rstrip has_digit]; rewrite <- IH.
  destruct (rstrip r) as [| c' r'] eqn:E.
  - destruct (is_space c) eqn:S.
    + destruct (is_digit c) eqn:D; [| reflexivity].
      apply digit_not_space in D; congruence.
    + cbn [has_digit]; reflexivity.
  - reflexivity.
Qed.

Lemma has_digit_strip (s : string) : has_digit (strip s) = has_digit s.
Proof. unfold strip; now rewrite has_digit_rstrip, has_digit_lstrip. Qed.

(** [span_digits] cuts its argument in two, the first part made of
    digits and the second not starting with one. *)
Lemma span_digits_spec (s : string) :
  let (d, t) := span_digits s in
  s = d ++ t /\ all_digits d = true
  /\ match t with
     | EmptyString => True
     | String c _ => is_digit c = false
     end.
Proof.
  induction s as [| c r IH]; cbn [span_digits].
  - repeat split.
  - destruct (is_digit c) eqn:D.
    + destruct (span_digits r) as [d t]; destruct IH as (E & A & T).
      cbn [append all_digits]; rewrite D, A, <- E; repeat split; exact T.
    + cbn [append all_digits]; repeat split; exact D.
Qed.

Lemma span_digits_app (d t : string) :
  all_digits d = true ->
  match t with
  | EmptyString => True
  | String c _ => is_digit c = false
  end ->
  span_digits (d ++ t) = (d, t).
Proof.
  intros A T; induction d as [| c r IH]; cbn [append].
  - destruct t as [| c r]; [reflexivity |].
    cbn [span_digits]; now rewrite T.
  - cbn [all_digits] in A; apply andb_true_iff in A as [D A].
    cbn [span_digits]; rewrite D, (IH A); reflexivity.
Qed.

Lemma span_digits_head (s : string) :
  fst (span_digits s) = EmptyString <->
  match s with
  | EmptyString => True
  | String c _ => is_digit c = false
  end.
Proof.
  destruct s as [| c r]; cbn [span_digits]; [tauto |].
  destruct (is_digit c); [| tauto].
  destruct (span_digits r); cbn [fst]; split; intros; discriminate.
Qed.

End StringFacts.

(** ** The price extractor *)

Section PriceFacts.
Import PyStr Extract.

Lemma span_digits_all (d : string) :
  all_digits d = true -> span_digits d = (d, EmptyString).
Proof.
  induction d as [| c r IH]; cbn [all_digits span_digits]; [reflexivity |].
  intros A; apply andb_true_iff in A as [D A].
  now rewrite D, (IH A).
Qed.

Lemma float_integer (ip : string) :
  ip <> EmptyString -> all_digits ip = true ->
  float ip = Ok (Binary64.round64 (decimal ip EmptyString)).
Proof.
  intros N A; unfold float; rewrite (span_digits_all _ A).
  destruct ip; [congruence | reflexivity].
Qed.

Lemma float_fraction (ip fp : string) :
  ip <> EmptyString -> all_digits ip = true -> all_digits fp = true ->
  float (ip ++ "." ++ fp) = Ok (Binary64.round64 (decimal ip fp)).
Proof.
  intros N A F; unfold float.
  rewrite (span_digits_app ip ("." ++ fp) A) by reflexivity.
  destruct ip; [congruence |].
  cbn [append]; now rewrite F.
Qed.

(** The shapes of the numeral [number_at] returns. *)
Lemma number_at_shape (s tok : string) :
  number_at s = Some tok ->
  exists ip fp,
    ip <> EmptyString /\ all_digits ip = true /\ all_digits fp = true
    /\ (tok = ip /\ fp = EmptyString \/ tok = ip ++ "." ++ fp).
Proof.
  unfold number_at.
  pose proof (span_digits_spec s) as H.
  destruct (span_digits s) as [ip r]; destruct H as (_ & A & _).
  destruct ip as [| c ip']; [discriminate |].
  destruct r as [| c' r'].
  - intros [= <-]; exists (String c ip'), EmptyString.
    repeat split; auto; discriminate.
  - destruct (Ascii.eqb c' ".") eqn:E.
    + apply Ascii.eqb_eq in E; subst c'.
      pose proof (span_digits_spec r') as H'.
      destruct (span_digits r') as [fp t]; destruct H' as (_ & F & _).
      intros [= <-]; exists (String c ip'), fp.
      repeat split; auto; discriminate.
    + assert (Some (String c ip') = Some tok ->
              exists ip fp, ip <> EmptyString /\ all_digits ip = true
                /\ all_digits fp = true
                /\ (tok = ip /\ fp = EmptyString \/ tok = ip ++ "." ++ fp)).
      { intros [= <-]; exists (String c ip'), EmptyString.
        repeat split; auto; discriminate. }
      destruct c' as [[] [] [] [] [] [] [] []]; try exact H;
        discriminate E.
Qed.

Lemma number_at_float (s tok : string) :
  number_at s = Some tok -> exists v, float tok = Ok v.
Proof.
  intros H; apply number_at_shape in H as (ip & fp & N & A & F & [[-> ->] | ->]).
  - eexists; now apply float_integer.
  - eexists; now apply float_fraction.
Qed.

Lemma number_at_none (s : string) :
  number_at s = None <->
  match s with
  | EmptyString => True
  | String c _ => is_digit c = false
  end.
Proof.
  rewrite <- span_digits_head; unfold number_at.
  destruct (span_digits s) as [ip r]; cbn [fst].
  destruct ip as [| c ip'].
  - tauto.
  - split; [| discriminate].
    destruct r as [| c' r']; [discriminate |].
    destruct c' as [[] [] [] [] [] [] [] []];
      try discriminate; destruct (span_digits r'); discriminate.
Qed.

Lemma first_number_float (s tok : string) :
  first_number s = Some tok -> exists v, float tok = Ok v.
Proof.
  induction s as [| c r IH]; cbn [first_number].
  - destruct (number_at EmptyString) eqn:E; [| discriminate].
    intros [= <-]; eapply number_at_float; eassumption.
  - destruct (number_at (String c r)) eqn:E; [| exact IH].
    intros [= <-]; eapply number_at_float; eassumption.
Qed.

Lemma first_number_none (s : string) :
  first_number s = None <-> has_digit s = false.
Proof.
  induction s as [| c r IH]; cbn [first_number has_digit].
  - destruct (number_at EmptyString) eqn:E; [| tauto].
    apply not_eq_sym in E; [tauto | ].
    intros E'; rewrite E in E'; discriminate.
  - destruct (number_at (String c r)) eqn:E.
    + destruct (is_digit c) eqn:D.
      * split; discriminate.
      * assert (H : number_at (String c r) = None) by (apply number_at_none; exact D).
        congruence.
    + apply number_at_none in E; rewrite E; exact IH.
Qed.

Lemma has_digit_clean_price (t : string) :
  has_digit (clean_price t) = has_digit t.
Proof.
  unfold clean_price.
  rewrite has_digit_strip.
  rewrite !has_digit_replace; try discriminate; try reflexivity.
  apply has_digit_lower.
Qed.

(** The extractor never raises: every numeral the pattern matches is
    one [float] accepts. *)
Lemma extract_price_numeric_total (t : option string) :
  exists r, extract_price_numeric t = Ok r.
Proof.
  destruct t as [[| c r] |]; cbn [extract_price_numeric]; eauto.
  destruct (first_number (clean_price (String c r))) as [tok |] eqn:E; eauto.
  destruct (first_number_float _ _ E) as [v ->]; cbn [bind].
  case_ifs; eauto.
Qed.

Lemma extract_price_numeric_none (t : string) :
  extract_price_numeric (Some t) = Ok None <-> has_digit t = false.
Proof.
  destruct t as [| c r]; [cbn; tauto |].
  rewrite <- has_digit_clean_price, <- first_number_none.
  cbn [extract_price_numeric].
  destruct (first_number (clean_price (String c r))) as [tok |] eqn:E;
    [| tauto].
  destruct (first_number_float _ _ E) as [v ->]; cbn [bind].
  split; [| discriminate].
  case_ifs; discriminate.
Qed.

End PriceFacts.

Section NumberSuffix.
Import PyStr Extract PriceSpec.

Lemma lower_app (a b : string) : lower (a ++ b) = lower a ++ lower b.
Proof. induction a as [| c r IH]; cbn; [reflexivity | now rewrite IH]. Qed.

Lemma all_chars_app (p : ascii -> bool) (a b : string) :
  all_chars p (a ++ b) = all_chars p a && all_chars p b.
Proof.
  induction a as [| c r IH]; cbn; [reflexivity |].
  now rewrite IH, andb_assoc.
Qed.

Lemma all_chars_weaken (p q : ascii -> bool) (s : string) :
  (forall c, p c = true -> q c = true) ->
  all_chars p s = true -> all_chars q s = true.
Proof.
  intros W; induction s as [| c r IH]; cbn; [reflexivity |].
  intros H; apply andb_true_iff in H as [H1 H2].
  now rewrite (W _ H1), (IH H2).
Qed.

Lemma all_digits_chars (s : string) : all_digits s = all_chars is_digit s.
Proof. induction s as [| c r IH]; cbn; [reflexivity | now rewrite IH]. Qed.

Lemma all_spaces_chars (s : string) : all_spaces s = all_chars is_space s.
Proof. induction s as [| c r IH]; cbn; [reflexivity | now rewrite IH]. Qed.

Lemma plain_digits (s : string) :
  all_digits s = true -> all_chars plain s = true.
Proof.
  rewrite all_digits_chars; apply all_chars_weaken.
  intros c H; unfold plain; now rewrite H.
Qed.

Lemma plain_spaces (s : string) :
  all_spaces s = true -> all_chars plain s = true.
Proof.
  rewrite all_spaces_chars; apply all_chars_weaken.
  intros c H; unfold plain; rewrite H; now rewrite orb_true_r.
Qed.

Lemma plain_lower_char (c : ascii) : plain c = true -> lower_char c = c.
Proof.
  unfold plain; intros H.
  apply orb_true_iff in H as [H | H];
    [apply orb_true_iff in H as [H | H] |].
  - now apply lower_char_digit.
  - now apply lower_char_space.
  - apply Ascii.eqb_eq in H; now subst c.
Qed.

Lemma lower_plain (s : string) : all_chars plain s = true -> lower s = s.
Proof.
  induction s as [| c r IH]; cbn; [reflexivity |].
  intros H; apply andb_true_iff in H as [H1 H2].
  now rewrite (plain_lower_char _ H1), (IH H2).
Qed.







Lemma rstrip_no_space (s : string) :
  all_chars (fun c => negb (is_space c)) s = true -> rstrip s = s.
Proof.
  induction s as [| c r IH]; cbn [all_chars rstrip]; [reflexivity |].
  intros H; apply andb_true_iff in H as [H1 H2].
  rewrite (IH H2). apply negb_true_iff in H1; rewrite H1.
  now destruct r.
Qed.



Lemma float_numeral (ip : string) (fp : option string) :
  ip <> EmptyString -> all_digits ip = true ->
  match fp with Some f => all_digits f = true | None => True end ->
  float (numeral ip fp) = Ok (Binary64.round64 (decimal ip (fraction fp))).
Proof.
  intros N A F; destruct fp as [f |]; cbn [numeral fraction].
  - now apply float_fraction.
  - now apply float_integer.
Qed.

Lemma append_assoc (a b c : string) : (a ++ b) ++ c = a ++ b ++ c.
Proof. induction a as [| x r IH]; cbn; [reflexivity | now rewrite IH]. Qed.

Lemma append_nil_r (a : string) : a ++ EmptyString = a.
Proof. induction a as [| x r IH]; cbn; [reflexivity | now rewrite IH]. Qed.



(** The value returned once a numeral is found: the numeral times the
    factor of the first marker the cleaned text contains. *)
Lemma extract_price_numeric_value (t tok : string) (v : pyfloat) :
  t <> EmptyString ->
  first_number (clean_price t) = Some tok -> float tok = Ok v ->
  extract_price_numeric (Some t)
  = Ok (Some (scale_value v (marker_scale (clean_price t)))).
Proof.
  intros N E V; destruct t as [| c r]; [congruence |].
  cbn [extract_price_numeric]; rewrite E, V; cbn [bind].
  unfold marker_scale, scale_value.
  set (cp := clean_price (String c r)).
  destruct (contains "crore" cp || contains "cr" cp); [reflexivity |].
  destruct (contains "lakh" cp || contains "lac" cp); [reflexivity |].
  destruct (contains "k" cp); reflexivity.
Qed.






(** The first numeral of a text has one of the two shapes. *)
Lemma first_number_shape (s tok : string) :
  first_number s = Some tok ->
  exists ip fp,
    ip <> EmptyString /\ all_digits ip = true
    /\ match fp with Some f => all_digits f = true | None => True end
    /\ tok = numeral ip fp.
Proof.
  assert (N : forall u, number_at u = Some tok ->
              exists ip fp,
                ip <> EmptyString /\ all_digits ip = true
                /\ match fp with Some f => all_digits f = true | None => True end
                /\ tok = numeral ip fp).
  { intros u H.
    apply number_at_shape in H as (ip & fp & Hn & A & F & [[-> ->] | ->]).
    - exists ip, None; repeat split; trivial.
    - exists ip, (Some fp); repeat split; trivial. }
  induction s as [| c r IH]; cbn [first_number].
  - destruct (number_at EmptyString) eqn:E; [| discriminate].
    intros [= <-]; now apply (N EmptyString).
  - destruct (number_at (String c r)) eqn:E; [| exact IH].
    intros [= <-]; now apply (N (String c r)).
Qed.

End NumberSuffix.

(** ** The price rule *)

Section PriceRule.
Import PyStr Extract PriceSpec.

Lemma prefix_self_app (old rest : string) : prefix old (old ++ rest) = true.
Proof.
  induction old as [| c r IH]; cbn [append prefix].
  - destruct rest; reflexivity.
  - destruct (ascii_dec c c); [exact IH | congruence].
Qed.






Lemma all_digits_app (a b : string) :
  all_digits (a ++ b) = all_digits a && all_digits b.
Proof. rewrite !all_digits_chars; apply all_chars_app. Qed.








End PriceRule.

(** ** Claims on the extractors, the filter and the routes *)

Section Claims.
Import PyStr Extract PriceSpec.

Lemma in_bedrooms_iff (b : string) (l : list string) :
  Validate.in_bedrooms b l = true <-> In b l.
Proof.
  unfold Validate.in_bedrooms; rewrite existsb_exists; split.
  - intros (x & Hx & E); apply String.eqb_eq in E; now subst.
  - intros H; exists b; split; [exact H | apply String.eqb_refl].
Qed.

Lemma bhk_check_iff (self : PropertyFinder) (d : property_data) :
  Validate.bhk_check self d = true
  <-> exists b, bhk d = Some b /\ b <> EmptyString /\ ~ In b (bedrooms self).
Proof.
  unfold Validate.bhk_check; split.
  - intros H; destruct (bhk d) as [b |]; [| discriminate].
    apply andb_true_iff in H as [T H]; apply negb_true_iff in H.
    exists b; repeat split.
    + intros ->; discriminate T.
    + rewrite <- in_bedrooms_iff; congruence.
  - intros (b & -> & N & NI); apply andb_true_iff; split.
    + destruct b; [congruence | reflexivity].
    + apply negb_true_iff.
      destruct (Validate.in_bedrooms b (bedrooms self)) eqn:B;
        [apply in_bedrooms_iff in B; contradiction | reflexivity].
Qed.

Lemma price_check_iff (self : PropertyFinder) (d : property_data) :
  Validate.price_check self d = true
  <-> budget_max self <> 0%Z
      /\ exists x, price_numeric d = Some x /\ Binary64.nonzero x = true
                   /\ Binary64.gt_int x (budget_max self) = true.
Proof.
  unfold Validate.price_check, Validate.truthy_int, Validate.truthy_float,
    Validate.exceeds.
  destruct (Z.eqb_spec (budget_max self) 0) as [Z | Z]; cbn [negb andb].
  - split; [discriminate | intros [N _]; contradiction].
  - destruct (price_numeric d) as [x |].
    + destruct (Binary64.nonzero x) eqn:T.
      * split; [intros H; split; [exact Z | now exists x] |].
        now intros (_ & y & [= <-] & _ & G).
      * split; [discriminate | intros (_ & y & [= <-] & F & _); congruence].
    + split; [discriminate | intros (_ & y & F & _); discriminate].
Qed.

Lemma preferred_check_iff (self : PropertyFinder) (d : property_data) :
  Validate.preferred_check self d = true
  <-> preferred_only self = true /\ preferred_builder d <> Some "⭐ YES".
Proof.
  unfold Validate.preferred_check.
  destruct (preferred_only self); cbn [andb].
  - destruct (preferred_builder d) as [v |].
    + destruct (String.eqb_spec v "⭐ YES") as [-> | N]; cbn [negb].
      * split; [discriminate | intros [_ H]; now contradiction H].
      * split; [intros _; split; [reflexivity | congruence] | reflexivity].
    + split; [intros _; split; [reflexivity | discriminate] | reflexivity].
  - split; [discriminate | intros [H _]; discriminate].
Qed.

(** C3, as the code has it.  [validate_property] answers [False]
    exactly when one of its three rules rejects: the price rule (a
    non-zero budget and a non-zero price above it), the BHK rule (a
    [bhk] that is present, is not the empty string and is not an
    element of [self.bedrooms]) or the preferred-builder rule.  So,
    for a listing that the price rule and the preferred-builder rule
    let through, the filter rejects exactly when the BHK rule does; a
    listing whose [bhk] is [None] is rejected only by one of the other
    two rules; and the text "Unknown" is rejected like any other value
    unless [self.bedrooms] holds it. *)
Theorem validate_bhk_rule (self : PropertyFinder) (d : property_data) :
  (Validate.validate_property self d = false
   <-> (budget_max self <> 0%Z
        /\ exists x, price_numeric d = Some x /\ Binary64.nonzero x = true
                     /\ Binary64.gt_int x (budget_max self) = true)
       \/ (exists b, bhk d = Some b /\ b <> EmptyString
                     /\ ~ In b (bedrooms self))
       \/ (preferred_only self = true
           /\ preferred_builder d <> Some "⭐ YES"))
  /\ (~ (budget_max self <> 0%Z
         /\ exists x, price_numeric d = Some x /\ Binary64.nonzero x = true
                      /\ Binary64.gt_int x (budget_max self) = true) ->
      ~ (preferred_only self = true
         /\ preferred_builder d <> Some "⭐ YES") ->
      (Validate.validate_property self d = false
       <-> exists b, bhk d = Some b /\ b <> EmptyString
                     /\ ~ In b (bedrooms self)))
  /\ (bhk d = None ->
      Validate.validate_property self d = false ->
      (budget_max self <> 0%Z
       /\ exists x, price_numeric d = Some x /\ Binary64.nonzero x = true
                    /\ Binary64.gt_int x (budget_max self) = true)
      \/ (preferred_only self = true
          /\ preferred_builder d <> Some "⭐ YES"))
  /\ (bhk d = Some "Unknown" -> ~ In "Unknown" (bedrooms self) ->
      Validate.validate_property self d = false).
Proof.
  assert (V : Validate.validate_property self d = false
              <-> Validate.price_check self d = true
                  \/ Validate.bhk_check self d = true
                  \/ Validate.preferred_check self d = true).
  { unfold Validate.validate_property.
    destruct (Validate.price_check self d), (Validate.bhk_check self d),
      (Validate.preferred_check self d); intuition discriminate. }
  rewrite price_check_iff, bhk_check_iff, preferred_check_iff in V.
  split; [exact V |].
  split; [intros NP NS; rewrite V; tauto |].
  split.
  - intros E H; apply V in H as [H | [(b & F & _) | H]]; [tauto | | tauto].
    congruence.
  - intros E NI; apply V; right; left.
    exists "Unknown"; repeat split; [exact E | discriminate | exact NI].
Qed.

Lemma validate_bhk_rule_witness :
  Validate.validate_property Samples.finder_23
    (set_bhk (Some "Unknown") Samples.listing_unknown_bhk) = false.
Proof.
  exact (proj2 (proj2 (proj2 (validate_bhk_rule Samples.finder_23
                         (set_bhk (Some "Unknown") Samples.listing_unknown_bhk))))
           eq_refl
           ltac:(intros [H | [H | []]]; discriminate H)).
Defined.

(** C3 as stated fails: a listing whose [bhk] is the text "Unknown" is
    rejected by the BHK guard of a finder that wants 2 or 3 BHK, and
    is accepted once its [bhk] is [None]. *)
Lemma validate_rejects_unknown_bhk :
  bhk Samples.listing_unknown_bhk = Some "Unknown"
  /\ Validate.price_check Samples.finder_23 Samples.listing_unknown_bhk = false
  /\ Validate.bhk_check Samples.finder_23 Samples.listing_unknown_bhk = true
  /\ Validate.validate_property Samples.finder_23 Samples.listing_unknown_bhk
     = false
  /\ Validate.validate_property Samples.finder_23
       (set_bhk None Samples.listing_unknown_bhk) = true.
Proof. repeat split. Qed.

(** C8.  [validate_property] gives the same answer whatever the
    listing's [rera] field and the finder's [rera_req] are. *)
Theorem validate_ignores_rera (self : PropertyFinder) (d : property_data)
  (req : string) (mark : option string) :
  Validate.validate_property (set_rera_req req self) (set_rera mark d)
  = Validate.validate_property self d.
Proof. reflexivity. Qed.

(** C9, as the code has it.  A start request accepted while no run is
    active hands the worker a budget of the request's [budget] times
    100,000, the request counting in lakhs, and 80 lakhs when the key
    is absent; the finder the worker creates has that [budget_max]. *)
Theorem start_scraping_budget (data : Routes.start_request)
  (st : scraping_status) :
  running st = false ->
  exists j,
    snd (Routes.start_scraping data st) = Some j
    /\ Routes.job_budget_max j
       = (Routes.get_default (Routes.req_budget data) 80 * 100000)%Z
    /\ budget_max (Routes.make_finder j) = Routes.job_budget_max j.
Proof.
  intros R; unfold Routes.start_scraping; rewrite R; cbn [snd].
  eexists; repeat split.
Qed.

Lemma start_scraping_budget_witness :
  exists j,
    snd (Routes.start_scraping Samples.request_budget_80 Samples.idle_status)
    = Some j
    /\ Routes.job_budget_max j = (80 * 100000)%Z
    /\ budget_max (Routes.make_finder j) = Routes.job_budget_max j.
Proof.
  exact (start_scraping_budget Samples.request_budget_80 Samples.idle_status
           eq_refl).
Defined.

(** C9 as stated fails: a request with budget 80 gives the run a
    ceiling of 8,000,000, not of 80,000. *)
Lemma start_scraping_budget_not_thousands :
  option_map Routes.job_budget_max
    (snd (Routes.start_scraping Samples.request_budget_80 Samples.idle_status))
  = Some 8000000%Z
  /\ option_map Routes.job_budget_max
       (snd (Routes.start_scraping Samples.request_budget_80
               Samples.idle_status))
     <> Some (80 * 1000)%Z.
Proof. split; [reflexivity | discriminate]. Qed.

(** C2.  The route [export_csv] never gets as far as writing a file:
    without results it answers 400, and with results its first
    statement looks up the module [io], which the file never imports. *)
Theorem export_csv_never_writes (st : scraping_status) :
  Routes.export_csv st
  = if Routes.no_results st
    then Ok {| Routes.code := 400;
               Routes.body := Routes.JsonError "No results to export" |}
    else Raise (NameError "io").
Proof.
  unfold Routes.export_csv; destruct (Routes.no_results st); reflexivity.
Qed.

(** C10.  When [read_csv] raises on the uploaded bytes, the import
    route answers 500 with the parser's message and leaves the status,
    results included, as it was; and whenever the route changes the
    status at all, the parse has succeeded and the results are the
    rows parsed. *)
Theorem import_csv_parse_error (frame : Type)
  (read_csv : string -> result frame) (fillna : frame -> frame)
  (to_records : frame -> list property_data)
  (f : Routes.upload) (st : scraping_status) :
  (forall name e,
      Routes.filename f = Some name -> name <> EmptyString ->
      read_csv (Routes.content f) = Raise e ->
      Routes.import_csv_route frame read_csv fillna to_records (Some f) st
      = (Ok {| Routes.code := 500;
               Routes.body :=
                 Routes.JsonError ("Failed to parse CSV: " ++ Routes.exn_text e) |},
         st))
  /\ (forall file,
        snd (Routes.import_csv_route frame read_csv fillna to_records file st)
        = st
        \/ exists g df,
             file = Some g /\ read_csv (Routes.content g) = Ok df
             /\ results (snd (Routes.import_csv_route frame read_csv fillna
                                to_records file st))
                = Some (to_records (fillna df))).
Proof.
  split.
  - intros name e Hn Hne He; unfold Routes.import_csv_route.
    rewrite Hn, He; destruct name; [congruence | reflexivity].
  - intros [g |]; [| left; reflexivity].
    unfold Routes.import_csv_route.
    destruct (Routes.filename g) as [[| c r] |]; try (left; reflexivity).
    destruct (read_csv (Routes.content g)) as [df | e] eqn:E;
      [| left; reflexivity].
    right; exists g, df; repeat split; trivial.
Qed.

Lemma import_csv_parse_error_witness :
  Routes.import_csv_route (list property_data) Samples.read_csv_sample
    (fun df => df) (fun df => df) (Some Samples.empty_upload)
    Samples.status_with_one_result
  = (Ok {| Routes.code := 500;
           Routes.body :=
             Routes.JsonError
               "Failed to parse CSV: No columns to parse from file" |},
     Samples.status_with_one_result).
Proof.
  exact (proj1 (import_csv_parse_error (list property_data)
                  Samples.read_csv_sample (fun df => df) (fun df => df)
                  Samples.empty_upload Samples.status_with_one_result)
           "listings.csv" (ParserError "No columns to parse from file")
           eq_refl ltac:(discriminate) eq_refl).
Defined.

End Claims.

(** ** The 99acres adapter adds nothing *)

Section Acres99Facts.

Lemma same_store_refl (w : world) : same_store w w.
Proof. split; reflexivity. Qed.

Lemma same_store_trans (w1 w2 w3 : world) :
  same_store w1 w2 -> same_store w2 w3 -> same_store w1 w3.
Proof. intros [A B] [C D]; split; congruence. Qed.

Lemma keeps_ret : keeps (ret tt).
Proof. intros w; exists w; split; [reflexivity | apply same_store_refl]. Qed.

Lemma keeps_bind (m : M unit) (k : unit -> M unit) :
  keeps m -> (forall u, keeps (k u)) -> keeps (bindM m k).
Proof.
  intros Hm Hk w; unfold bindM.
  destruct (Hm w) as (w1 & -> & S1).
  destruct (Hk tt w1) as (w2 & E & S2).
  exists w2; split; [exact E | eapply same_store_trans; eassumption].
Qed.

Lemma keeps_read_status (k : scraping_status -> M unit) :
  (forall st, keeps (k st)) -> keeps (bindM read_status k).
Proof. intros Hk w; unfold bindM, read_status; apply Hk. Qed.

Lemma keeps_modify_status (f : scraping_status -> scraping_status) :
  (forall st, results (f st) = results st) -> keeps (modify_status f).
Proof.
  intros Hf w; eexists; split; [reflexivity |].
  split; [reflexivity | apply Hf].
Qed.

Lemma keeps_interrupt (b : bool) : keeps (interrupt b).
Proof.
  destruct b; cbn [interrupt]; [| apply keeps_ret].
  apply keeps_modify_status; intros st; unfold stop_status.
  now destruct (running st).
Qed.

Lemma keeps_when (c : bool) (m : M unit) : keeps m -> keeps (when c m).
Proof. destruct c; cbn [when]; [trivial | intros _; apply keeps_ret]. Qed.

Create HintDb store.
#[local] Hint Resolve same_store_refl keeps_ret keeps_interrupt keeps_when
  : store.

Lemma keeps_try_except (m : M unit) (h : exn -> M unit) :
  preserves m -> (forall e, keeps (h e)) -> keeps (try_except m h).
Proof.
  intros Hm Hh w; unfold try_except.
  specialize (Hm w); destruct (m w) as [[[] | e] w1]; cbn [snd] in Hm.
  - exists w1; split; [reflexivity | exact Hm].
  - destruct (Hh e w1) as (w2 & E & S2).
    exists w2; split; [exact E | eapply same_store_trans; eassumption].
Qed.

Lemma keeps_try_finally (m f : M unit) :
  keeps m -> keeps f -> keeps (try_finally m f).
Proof.
  intros Hm Hf w; unfold try_finally.
  destruct (Hm w) as (w1 & -> & S1).
  destruct (Hf w1) as (w2 & -> & S2).
  exists w2; split; [reflexivity | eapply same_store_trans; eassumption].
Qed.

Lemma keeps_preserves (m : M unit) : keeps m -> preserves m.
Proof. intros H w; destruct (H w) as (w' & -> & S); exact S. Qed.

Lemma keeps_for_boxes {B : Type} (body : B -> M unit)
  (boxes : list (bool * B)) :
  (forall prop, preserves (body prop)) -> keeps (for_boxes body boxes).
Proof.
  intros Hb; induction boxes as [| [stop prop] rest IH]; cbn [for_boxes].
  - auto with store.
  - apply keeps_bind; [auto with store | intros _].
    apply keeps_read_status; intros st.
    destruct (negb (running st)); [auto with store |].
    apply keeps_bind; [| intros _; exact IH].
    apply keeps_try_except; [apply Hb | auto with store].
Qed.

Lemma call_is_preferred_builder_raises (text : option string) :
  Store.call_is_preferred_builder text
  = Raise (AttributeError "is_preferred_builder").
Proof. reflexivity. Qed.

(** One listing of a 99acres page, from the fields of its box: the
    state is left as it was; the path ends normally when the price read
    from the box is non-zero and above a non-zero budget, and in an
    exception otherwise. *)
Lemma listing_99acres_outcome (prop : box_99acres) (w : world) :
  exists pn,
    Extract.extract_price_numeric (option_map PyStr.strip (price_99 prop))
    = Ok pn
    /\ Acres99.listing prop w
       = (match pn with
          | Some x =>
              if negb (budget_max (finder w) =? 0)%Z && Binary64.nonzero x
                 && Binary64.gt_int x (budget_max (finder w))
              then Ok tt
              else if PyStr.truthy (option_map PyStr.strip (project_99 prop))
              then Raise (AttributeError "is_preferred_builder")
              else Raise (TypeError
                "add_property() missing 1 required positional argument: 'property_data'")
          | None =>
              if PyStr.truthy (option_map PyStr.strip (project_99 prop))
              then Raise (AttributeError "is_preferred_builder")
              else Raise (TypeError
                "add_property() missing 1 required positional argument: 'property_data'")
          end, w).
Proof.
  destruct (extract_price_numeric_total
              (option_map PyStr.strip (price_99 prop))) as (pn & E).
  exists pn; split; [exact E |].
  unfold Acres99.listing, bindM, read_self, lift, Acres99.fill.
  rewrite E; cbn [bind].
  unfold Validate.truthy_int, Validate.truthy_float, Validate.exceeds.
  destruct pn as [x |].
  - destruct (negb (budget_max (finder w) =? 0)%Z && Binary64.nonzero x
              && Binary64.gt_int x (budget_max (finder w))); [reflexivity |].
    cbn [builder].
    destruct (PyStr.truthy (option_map PyStr.strip (project_99 prop)));
      reflexivity.
  - rewrite andb_false_r; cbn [andb builder].
    destruct (PyStr.truthy (option_map PyStr.strip (project_99 prop)));
      reflexivity.
Qed.

Lemma listing_99acres_state (prop : box_99acres) (w : world) :
  snd (Acres99.listing prop w) = w.
Proof.
  destruct (listing_99acres_outcome prop w) as (pn & _ & ->).
  reflexivity.
Qed.

Lemma preserves_listing_99acres (prop : box_99acres) :
  preserves (Acres99.listing prop).
Proof.
  intros w; rewrite listing_99acres_state; apply same_store_refl.
Qed.

Lemma keeps_scrape_pages (get : nat -> page box_99acres)
  (max_pages remaining page_no : nat) :
  keeps (Acres99.scrape_pages get max_pages page_no remaining).
Proof.
  revert page_no; induction remaining as [| k IH]; intros page_no;
    cbn [Acres99.scrape_pages].
  - apply keeps_ret.
  - apply keeps_bind; [apply keeps_interrupt | intros _].
    apply keeps_read_status; intros st.
    destruct (negb (running st)); [apply keeps_ret |].
    apply keeps_bind; [now apply keeps_modify_status | intros _].
    apply keeps_bind; [| intros _; apply IH].
    apply keeps_try_except; [| intros _; apply keeps_ret].
    intros w; unfold bindM, lift.
    destruct (fetched (get page_no)) as [boxes | e]; cbn [snd];
      [| apply same_store_refl].
    apply keeps_preserves, keeps_for_boxes, preserves_listing_99acres.
Qed.

Lemma keeps_scrape_99acres (get : nat -> page box_99acres) (max_pages : nat) :
  keeps (Acres99.scrape_99acres get max_pages).
Proof.
  unfold Acres99.scrape_99acres.
  apply keeps_bind; [now apply keeps_modify_status | intros _].
  apply keeps_scrape_pages.
Qed.

(** With the two other sites switched off, [scrape_all] either fails
    to start the driver or ends normally, and adds no record. *)
Lemma scrape_all_only_99acres (br : browser) (n : nat)
  (sites : list (string * bool)) (w : world) :
  sites_get sites "magicbricks" = false ->
  sites_get sites "housing" = false ->
  (exists e, scrape_all br n sites w = (Raise e, w))
  \/ (exists w', scrape_all br n sites w = (Ok tt, w') /\ same_store w w').
Proof.
  intros Hm Hh; unfold scrape_all, bindM at 1, lift.
  destruct (setup_driver br) as [[] | e]; [right | left; eauto].
  rewrite Hm, Hh; cbn [andb when].
  match goal with |- exists w', ?m w = _ /\ _ => assert (K : keeps m) end.
  { apply keeps_try_finally; [| apply keeps_ret].
    apply keeps_read_status; intros st.
    apply keeps_bind; [apply keeps_when, keeps_scrape_99acres | intros _].
    apply keeps_bind; [apply keeps_interrupt | intros _].
    apply keeps_read_status; intros st1.
    apply keeps_bind; [apply keeps_ret | intros _].
    apply keeps_bind; [apply keeps_interrupt | intros _].
    apply keeps_read_status; intros st2; apply keeps_ret. }
  exact (K w).
Qed.

(** C1, as the code has it.  The 99acres adapter adds no record.  Each
    listing leaves the finder and the status untouched.  For a box
    whose price text is made of ASCII characters and rupee signs and
    whose builder text is ASCII: a listing whose price, as
    [extract_price_numeric] reads it from the price text of the box,
    is non-zero and above a non-zero [budget_max] is skipped by the
    budget filter and ends without any exception; every other listing
    ends in an exception, which the box loop swallows: an
    [AttributeError] for the method [is_preferred_builder] when the
    listing names a builder, else a [TypeError] for the one-argument
    call of [add_property].  Hence a whole pass over 99acres ends
    normally with the rows and the live results as they were, and a
    run with the two other sites switched off ends with an empty
    result list and [running] false. *)
Theorem acres99_adds_no_record :
  (forall prop w, snd (Acres99.listing prop w) = w)
  /\ (forall prop w,
      (forall t, price_99 prop = Some t -> TextDomain.plain_text t = true) ->
      (forall t, project_99 prop = Some t -> TextDomain.ascii_text t = true) ->
      exists pn,
        Extract.extract_price_numeric (option_map PyStr.strip (price_99 prop))
        = Ok pn
        /\ Acres99.listing prop w
           = (match pn with
              | Some x =>
                  if negb (budget_max (finder w) =? 0)%Z && Binary64.nonzero x
                     && Binary64.gt_int x (budget_max (finder w))
                  then Ok tt
                  else if PyStr.truthy (option_map PyStr.strip (project_99 prop))
                  then Raise (AttributeError "is_preferred_builder")
                  else Raise (TypeError
                    "add_property() missing 1 required positional argument: 'property_data'")
              | None =>
                  if PyStr.truthy (option_map PyStr.strip (project_99 prop))
                  then Raise (AttributeError "is_preferred_builder")
                  else Raise (TypeError
                    "add_property() missing 1 required positional argument: 'property_data'")
              end, w))
  /\ (forall get max_pages w,
        exists w',
          Acres99.scrape_99acres get max_pages w = (Ok tt, w')
          /\ all_data (finder w') = all_data (finder w)
          /\ results (status w') = results (status w))
  /\ (forall br j st,
        sites_get (Routes.job_sites j) "magicbricks" = false ->
        sites_get (Routes.job_sites j) "housing" = false ->
        results (Routes.scrape_thread br j st) = Some []
        /\ running (Routes.scrape_thread br j st) = false).
Proof.
  split; [exact listing_99acres_state |].
  split; [intros prop w _ _; apply listing_99acres_outcome |].
  split.
  - intros get max_pages w.
    destruct (keeps_scrape_99acres get max_pages w) as (w' & E & F & R).
    exists w'; repeat split; trivial; now rewrite F.
  - intros br j st Hm Hh; unfold Routes.scrape_thread.
    cbv zeta; unfold try_finally, try_except, bindM.
    destruct (scrape_all_only_99acres br (Z.to_nat (Routes.pages j))
                (Routes.job_sites j)
                {| finder := Routes.make_finder j;
                   status := set_results (Some []) st |} Hm Hh)
      as [(e & ->) | (w' & -> & F & R)].
    + split; reflexivity.
    + cbn in F; unfold read_self, modify_status.
      cbn [fst snd status finder].
      rewrite F; split; reflexivity.
Qed.

(** C1 as stated fails: the per-listing path does not always raise.  A
    listing priced at two crore, seen by a finder whose budget is 80
    lakh, leaves the loop body by [continue]: the body ends normally,
    no exception reaches the handler, and the state is as it was. *)
Lemma acres99_listing_skipped_without_exception :
  Extract.extract_price_numeric (price_99 Samples.box_99_two_crore)
  = Ok (Some (Finite (20000000 # 1)))
  /\ budget_max (finder (Samples.world_wanting ["2"; "3"])) = 8000000%Z
  /\ Acres99.fill (finder (Samples.world_wanting ["2"; "3"]))
       Samples.box_99_two_crore = Ok None
  /\ Acres99.listing Samples.box_99_two_crore
       (Samples.world_wanting ["2"; "3"])
     = (Ok tt, Samples.world_wanting ["2"; "3"]).
Proof. repeat split; vm_compute; reflexivity. Qed.

End Acres99Facts.

Section Acres99Witness.

Lemma acres99_adds_no_record_witness :
  results (Routes.scrape_thread Samples.browser_99 Samples.job_only_99acres
             Routes.fresh_status) = Some []
  /\ running (Routes.scrape_thread Samples.browser_99
                Samples.job_only_99acres Routes.fresh_status) = false.
Proof.
  exact (proj2 (proj2 (proj2 acres99_adds_no_record)) Samples.browser_99
           Samples.job_only_99acres Routes.fresh_status eq_refl eq_refl).
Defined.

End Acres99Witness.

(** ** The values of [bhk] *)

Section BhkFacts.
Import PyStr Extract.

Lemma bhk_at_digits (s g : string) :
  bhk_at s = Some g -> g <> EmptyString /\ all_digits g = true.
Proof.
  unfold bhk_at; pose proof (span_digits_spec s) as H.
  destruct (span_digits s) as [d r]; destruct H as (_ & A & _).
  destruct d as [| c d']; [discriminate |].
  destruct (prefix "bhk" (lstrip r) || prefix "bedroom" (lstrip r)
            || prefix "bh" (lstrip r)); [| discriminate].
  intros [= <-]; split; [discriminate | exact A].
Qed.

Lemma bhk_search_digits (s g : string) :
  bhk_search s = Some g -> g <> EmptyString /\ all_digits g = true.
Proof.
  induction s as [| c r IH]; cbn [bhk_search].
  - destruct (bhk_at EmptyString) eqn:E; [| discriminate].
    intros [= <-]; eapply bhk_at_digits; eassumption.
  - destruct (bhk_at (String c r)) eqn:E; [| exact IH].
    intros [= <-]; eapply bhk_at_digits; eassumption.
Qed.

Lemma extract_bhk_digits (text : option string) :
  digit_text (extract_bhk text).
Proof.
  unfold digit_text.
  destruct text as [[| c r] |]; cbn [extract_bhk]; auto.
  destruct (bhk_search (lower (String c r))) as [g |] eqn:E; auto.
  right; exists g; split; [reflexivity |].
  eapply bhk_search_digits; eassumption.
Qed.

Lemma bhk_found_values (text : string) :
  In (Acres99.bhk_found text) ["1"; "2"; "3"; "4"; "Unknown"].
Proof.
  unfold Acres99.bhk_found.
  case_ifs; cbn; tauto.
Qed.

End BhkFacts.

(** ** Aggregation *)

Section AggregateFacts.
Import Aggregate.

Lemma option_eqb_eq (a b : option string) : option_eqb a b = true <-> a = b.
Proof.
  destruct a as [x |], b as [y |]; cbn; try (split; congruence).
  rewrite String.eqb_eq; split; congruence.
Qed.

Lemma same_key_iff (a b : property_data) :
  same_key a b = true <-> property a = property b /\ price a = price b.
Proof.
  unfold same_key; rewrite andb_true_iff, !option_eqb_eq; tauto.
Qed.

Lemma same_key_shift (k r x : property_data) :
  same_key k r = true -> same_key r x = same_key k x.
Proof.
  intros H; apply same_key_iff in H as [H1 H2].
  destruct (same_key r x) eqn:A, (same_key k x) eqn:B; trivial.
  - apply same_key_iff in A as [A1 A2].
    assert (same_key k x = true) by (apply same_key_iff; split; congruence).
    congruence.
  - apply same_key_iff in B as [B1 B2].
    assert (same_key r x = true) by (apply same_key_iff; split; congruence).
    congruence.
Qed.

Lemma existsb_same_key_shift (k r : property_data) (seen : list property_data) :
  same_key k r = true ->
  existsb (same_key r) seen = existsb (same_key k) seen.
Proof.
  intros H; induction seen as [| x t IH]; cbn; [reflexivity |].
  now rewrite IH, (same_key_shift k r x H).
Qed.

(** Of the rows that share a key with [k], [drop_from] keeps the
    first, unless one was seen before. *)
Lemma filter_drop_from (k : property_data) (rows seen : list property_data) :
  filter (same_key k) (drop_from seen rows)
  = if existsb (same_key k) seen then [] else first_with_key k rows.
Proof.
  revert seen; induction rows as [| r rest IH]; intros seen.
  - cbn; now destruct (existsb (same_key k) seen).
  - cbn [drop_from]; unfold first_with_key; cbn [find].
    destruct (existsb (same_key r) seen) eqn:S.
    + rewrite IH.
      destruct (existsb (same_key k) seen) eqn:K; [reflexivity |].
      destruct (same_key k r) eqn:E; [| reflexivity].
      rewrite (existsb_same_key_shift k r seen E) in S; congruence.
    + cbn [filter]; rewrite IH; cbn [existsb].
      destruct (same_key k r) eqn:E.
      * rewrite (existsb_same_key_shift k r seen E) in S; rewrite S.
        reflexivity.
      * cbn [orb]; reflexivity.
Qed.

Lemma drop_from_incl (rows seen : list property_data) (r : property_data) :
  In r (drop_from seen rows) -> In r rows.
Proof.
  revert seen; induction rows as [| x rest IH]; intros seen; cbn [drop_from].
  - tauto.
  - destruct (existsb (same_key x) seen).
    + intros H; right; eapply IH; eassumption.
    + intros [H | H]; [left; exact H | right; eapply IH; eassumption].
Qed.

(** *** The order *)

Lemma leb_total (x y : pyfloat) :
  Binary64.leb x y = false -> Binary64.leb y x = true.
Proof.
  destruct x as [a | |], y as [b | |]; cbn; try congruence.
  intros H; apply Qle_bool_iff.
  destruct (Qlt_le_dec b a) as [L | L].
  - now apply Qlt_le_weak.
  - apply Qle_bool_iff in L; congruence.
Qed.

Lemma leb_trans (x y z : pyfloat) :
  Binary64.leb x y = true -> Binary64.leb y z = true ->
  Binary64.leb x z = true.
Proof.
  destruct x as [a | |], y as [b | |], z as [c | |]; cbn; try congruence.
  rewrite !Qle_bool_iff; apply Qle_trans.
Qed.

Lemma price_le_total (a b : option pyfloat) :
  price_le a b = false -> price_le b a = true.
Proof.
  destruct a as [x |], b as [y |]; cbn; try congruence.
  apply leb_total.
Qed.

Lemma price_le_trans (a b c : option pyfloat) :
  price_le a b = true -> price_le b c = true -> price_le a c = true.
Proof.
  destruct a as [x |], b as [y |], c as [z |]; cbn; try congruence.
  apply leb_trans.
Qed.

Lemma key_le_total (a b : property_data) :
  key_le a b = false -> key_le b a = true.
Proof.
  unfold key_le; intros H.
  apply orb_false_iff in H as [H1 H2].
  apply Nat.ltb_ge in H1.
  destruct (Nat.eqb_spec (sort_preferred a) (sort_preferred b)) as [E | N].
  - cbn [andb] in H2; apply price_le_total in H2.
    rewrite E, Nat.eqb_refl, H2; cbn; apply orb_true_r.
  - apply orb_true_iff; left; apply Nat.ltb_lt; lia.
Qed.

Lemma key_le_trans (a b c : property_data) :
  key_le a b = true -> key_le b c = true -> key_le a c = true.
Proof.
  unfold key_le; intros H1 H2.
  apply orb_true_iff in H1; apply orb_true_iff in H2; apply orb_true_iff.
  destruct H1 as [H1 | H1], H2 as [H2 | H2].
  - apply Nat.ltb_lt in H1, H2; left; apply Nat.ltb_lt; lia.
  - apply andb_true_iff in H2 as [H2 _]; apply Nat.eqb_eq in H2.
    left; now rewrite <- H2.
  - apply andb_true_iff in H1 as [H1 _]; apply Nat.eqb_eq in H1.
    left; now rewrite H1.
  - apply andb_true_iff in H1 as [E1 P1]; apply andb_true_iff in H2 as [E2 P2].
    apply Nat.eqb_eq in E1, E2; right.
    rewrite E1, E2, Nat.eqb_refl; cbn [andb].
    eapply price_le_trans; eassumption.
Qed.

Lemma insert_perm (r : property_data) (l : list property_data) :
  Permutation (r :: l) (insert r l).
Proof.
  induction l as [| x t IH]; cbn [insert]; [reflexivity |].
  destruct (key_le r x); [reflexivity |].
  rewrite perm_swap; now apply perm_skip.
Qed.

Lemma sort_values_perm (l : list property_data) :
  Permutation l (sort_values l).
Proof.
  induction l as [| r t IH]; cbn [sort_values]; [reflexivity |].
  rewrite <- insert_perm; now apply perm_skip.
Qed.

Lemma insert_sorted (r : property_data) (l : list property_data) :
  StronglySorted ordered l -> StronglySorted ordered (insert r l).
Proof.
  induction 1 as [| x t S IH F]; cbn [insert].
  - repeat constructor.
  - destruct (key_le r x) eqn:E.
    + constructor; [now constructor |].
      constructor; [exact E |].
      eapply Forall_impl; [| exact F].
      intros y Hy; eapply key_le_trans; eassumption.
    + constructor; [exact IH |].
      eapply Permutation_Forall; [apply insert_perm |].
      constructor; [now apply key_le_total | exact F].
Qed.

Lemma sort_values_sorted (l : list property_data) :
  StronglySorted ordered (sort_values l).
Proof.
  induction l as [| r t IH]; cbn [sort_values]; [constructor |].
  now apply insert_sorted.
Qed.

(** Insertion puts a row in front of the rows it cannot be told from:
    a class of rows closed under [key_le r] keeps its order. *)
Lemma filter_insert (p : property_data -> bool) (r : property_data)
  (l : list property_data) :
  (forall x, p r = true -> p x = true -> key_le r x = true) ->
  filter p (insert r l) = filter p (r :: l).
Proof.
  intros C; induction l as [| x t IH]; cbn [insert]; [reflexivity |].
  destruct (key_le r x) eqn:E; [reflexivity |].
  cbn [filter] in *; rewrite IH.
  destruct (p r) eqn:R, (p x) eqn:X; try reflexivity.
  rewrite (C x eq_refl X) in E; discriminate.
Qed.

Lemma sort_values_stable (k : property_data) (l : list property_data) :
  filter (same_sort_key k) (sort_values l) = filter (same_sort_key k) l.
Proof.
  induction l as [| r t IH]; cbn [sort_values]; [reflexivity |].
  rewrite filter_insert.
  - cbn [filter]; now rewrite IH.
  - unfold same_sort_key; intros x R X.
    apply andb_true_iff in R as [_ R]; apply andb_true_iff in X as [X _].
    eapply key_le_trans; eassumption.
Qed.

Lemma get_results_df_eq (self : PropertyFinder) :
  get_results_df self = sort_values (drop_duplicates (all_data self)).
Proof. unfold get_results_df; now destruct (all_data self). Qed.

Lemma filter_perm (p : property_data -> bool) (l l' : list property_data) :
  Permutation l l' -> Permutation (filter p l) (filter p l').
Proof.
  induction 1 as [| x l l' H IH | x y l | l l' l'' H1 IH1 H2 IH2]; cbn [filter].
  - constructor.
  - destruct (p x); [now apply perm_skip | exact IH].
  - destruct (p x), (p y); try reflexivity; apply perm_swap.
  - eapply perm_trans; eassumption.
Qed.

(** C6.  [get_results_df] returns the rows that survive the removal
    of duplicates, sorted by the key (star, price): a row showing the
    star comes before a row that does not; among rows of one tier the
    prices ascend and a missing price comes last; and the sort is
    stable, rows with the same key staying in the order they had in
    the input.  The three listings of the specification come out in
    the order it gives. *)
Theorem get_results_df_order (self : PropertyFinder) :
  StronglySorted ordered (get_results_df self)
  /\ Permutation (drop_duplicates (all_data self)) (get_results_df self)
  /\ (forall k,
        filter (same_sort_key k) (get_results_df self)
        = filter (same_sort_key k) (drop_duplicates (all_data self)))
  /\ (forall a b,
        key_le a b = true
        <-> (starred a = true /\ starred b = false)
            \/ (starred a = starred b
                /\ price_le (price_numeric a) (price_numeric b) = true))
  /\ (forall x y : Q,
        price_le (Some (Finite x)) (Some (Finite y)) = true <-> (x <= y)%Q)
  /\ (forall x, price_le (Some x) (Some PosInf) = true)
  /\ (forall x : Q, price_le (Some PosInf) (Some (Finite x)) = false)
  /\ (forall x, price_le (Some NegInf) (Some x) = true)
  /\ (forall x : Q, price_le (Some (Finite x)) (Some NegInf) = false)
  /\ (forall x, price_le (Some x) None = true)
  /\ (forall y, price_le None (Some y) = false)
  /\ get_results_df
       (Samples.finder_with
          [Samples.row_plain_5m; Samples.row_star_9m; Samples.row_star_3m])
     = [Samples.row_star_3m; Samples.row_star_9m; Samples.row_plain_5m].
Proof.
  rewrite get_results_df_eq.
  split; [apply sort_values_sorted |].
  split; [apply sort_values_perm |].
  split; [intros k; apply sort_values_stable |].
  split.
  - intros a b; unfold key_le, sort_preferred; fold (starred a) (starred b).
    destruct (starred a), (starred b); cbn; intuition congruence.
  - split; [intros x y; apply Qle_bool_iff |].
    split; [intros [x | |]; reflexivity |].
    split; [reflexivity |].
    split; [intros [x | |]; reflexivity |].
    repeat split; vm_compute; reflexivity.
Qed.

Lemma get_results_df_order_witness :
  StronglySorted ordered
    (get_results_df
       (Samples.finder_with
          [Samples.row_plain_5m; Samples.row_star_9m; Samples.row_star_3m])).
Proof.
  exact (proj1 (get_results_df_order
                  (Samples.finder_with
                     [Samples.row_plain_5m; Samples.row_star_9m;
                      Samples.row_star_3m]))).
Defined.

Lemma same_key_eq (a b : property_data) :
  same_key a b = true <-> (property a, price a) = (property b, price b).
Proof.
  unfold same_key; rewrite andb_true_iff, !option_eqb_eq.
  split; [intros [-> ->]; reflexivity | intros [= -> ->]; split; reflexivity].
Qed.

Lemma seen_key (r : property_data) (seen : list property_data) :
  existsb (same_key r) seen = true
  <-> In (property r, price r) (map (fun x => (property x, price x)) seen).
Proof.
  rewrite existsb_exists, in_map_iff; split.
  - intros (x & I & E); apply same_key_eq in E; exists x; split; congruence.
  - intros (x & E & I); exists x; split; [exact I |].
    apply same_key_eq; congruence.
Qed.

(** A row survives [drop_from] exactly at an occurrence that no row
    seen so far, and no row before it, shares the title and price
    text of. *)
Lemma in_drop_from (r : property_data) (rows seen : list property_data) :
  In r (drop_from seen rows)
  <-> exists pre post,
        rows = (pre ++ r :: post)%list
        /\ ~ In (property r, price r)
               (map (fun x => (property x, price x)) (seen ++ pre)%list).
Proof.
  revert seen; induction rows as [| a rest IH]; intros seen;
    cbn [drop_from].
  - split; [intros [] | intros ([| x pre] & post & E & _); discriminate E].
  - destruct (existsb (same_key a) seen) eqn:S.
    + apply seen_key in S; rewrite IH; split.
      * intros (pre & post & -> & N); exists (a :: pre)%list, post.
        split; [reflexivity |].
        rewrite map_app, in_app_iff in *; cbn [map In]; intros [H | [H | H]];
          [tauto | | tauto].
        apply N; left; congruence.
      * intros ([| x pre] & post & E & N); injection E as -> ->.
        -- rewrite app_nil_r in N; contradiction.
        -- exists pre, post; split; [reflexivity |].
           rewrite map_app, in_app_iff in *; cbn [map In] in N; tauto.
    + assert (NS : ~ In (property a, price a)
                     (map (fun x => (property x, price x)) seen))
        by (rewrite <- seen_key; congruence).
      cbn [In]; rewrite IH; split.
      * intros [<- | (pre & post & -> & N)].
        -- exists [], rest; split; [reflexivity | now rewrite app_nil_r].
        -- exists (a :: pre)%list, post; split; [reflexivity |].
           cbn [app map In] in N.
           rewrite map_app, in_app_iff in *; cbn [map In]; tauto.
      * intros ([| x pre] & post & E & N); injection E as -> ->.
        -- now left.
        -- right; exists pre, post; split; [reflexivity |].
           cbn [app map In].
           rewrite map_app, in_app_iff in *; cbn [map In] in N; tauto.
Qed.

Lemma drop_from_keys (rows seen : list property_data) :
  NoDup (map (fun x => (property x, price x)) (drop_from seen rows)).
Proof.
  revert seen; induction rows as [| a rest IH]; intros seen;
    cbn [drop_from]; [constructor |].
  destruct (existsb (same_key a) seen); [apply IH |].
  cbn [map]; constructor; [| apply IH].
  rewrite in_map_iff; intros (x & E & I).
  apply in_drop_from in I as (pre & post & _ & N).
  apply N; cbn [app map In]; left; congruence.
Qed.

(** C7.  [get_results_df] removes duplicates by the key (title, price
    text) and keeps the first occurrence: a row is in the output
    exactly when it stands in [all_data], the rows in the order in
    which the adapters added them, at a place before which no row has
    both its title and its price text; no two rows of the output share
    both.  Two rows with the same title and price text and different
    sources come out as the first of them; two rows with the same
    title and different price texts both come out. *)
Theorem get_results_df_keeps_first (self : PropertyFinder) :
  (forall r,
      In r (get_results_df self)
      <-> exists pre post,
            all_data self = (pre ++ r :: post)%list
            /\ ~ In (property r, price r)
                   (map (fun x => (property x, price x)) pre))
  /\ NoDup (map (fun x => (property x, price x)) (get_results_df self))
  /\ (forall k,
        filter (same_key k) (get_results_df self)
        = first_with_key k (all_data self))
  /\ (forall r, In r (get_results_df self) -> In r (all_data self))
  /\ get_results_df
       (Samples.finder_with
          [Samples.row_from "MagicBricks"; Samples.row_from "Housing.com"])
     = [Samples.row_from "MagicBricks"]
  /\ get_results_df
       (Samples.finder_with
          [Samples.with_title_price "Flat" "90 Lac" None;
           Samples.with_title_price "Flat" "95 Lac" None])
     = [Samples.with_title_price "Flat" "90 Lac" None;
        Samples.with_title_price "Flat" "95 Lac" None].
Proof.
  rewrite get_results_df_eq.
  assert (D : forall k, filter (same_key k) (drop_duplicates (all_data self))
                        = first_with_key k (all_data self))
    by (intros k; unfold drop_duplicates; now rewrite filter_drop_from).
  pose proof (sort_values_perm (drop_duplicates (all_data self))) as P.
  split.
  { intros r; rewrite <- (in_drop_from r (all_data self) []).
    split; intros H.
    - exact (Permutation_in r (Permutation_sym P) H).
    - exact (Permutation_in r P H). }
  split.
  { eapply Permutation_NoDup; [apply Permutation_map, P |].
    apply drop_from_keys. }
  split.
  - intros k.
    pose proof (filter_perm (same_key k) _ _ P) as Q.
    rewrite D in Q; unfold first_with_key in *.
    destruct (find (same_key k) (all_data self)).
    + now apply Permutation_length_1_inv.
    + now apply Permutation_nil.
  - split; [| split; vm_compute; reflexivity].
    intros r H.
    apply (Permutation_in r (Permutation_sym P)) in H.
    eapply drop_from_incl; exact H.
Qed.

Lemma get_results_df_keeps_first_witness :
  In (Samples.row_from "MagicBricks")
    (get_results_df
       (Samples.finder_with
          [Samples.with_title_price "Flat" "90 Lac" None;
           Samples.row_from "MagicBricks"; Samples.row_from "Housing.com"])).
Proof.
  apply (proj2 (proj1 (get_results_df_keeps_first
                         (Samples.finder_with
                            [Samples.with_title_price "Flat" "90 Lac" None;
                             Samples.row_from "MagicBricks";
                             Samples.row_from "Housing.com"]))
                  (Samples.row_from "MagicBricks"))).
  exists [Samples.with_title_price "Flat" "90 Lac" None],
    [Samples.row_from "Housing.com"].
  split; [reflexivity | intros [H | []]; discriminate H].
Defined.

End AggregateFacts.

(** ** The examples of the specification *)

Section SpecExamples.
Import Extract Validate.

Example extract_bhk_luxury :
  extract_bhk (Some "3 BHK Luxury Apartment") = Some "3".
Proof. reflexivity. Qed.

Example extract_bhk_studio : extract_bhk (Some "Studio Apartment") = None.
Proof. reflexivity. Qed.

Example extract_bhk_glued : extract_bhk (Some "2bhk") = Some "2".
Proof. reflexivity. Qed.

Example preferred_prestige :
  check_preferred_builder (Some "Prestige Lakeside Habitat") = true.
Proof. reflexivity. Qed.

Example preferred_l_and_t :
  check_preferred_builder (Some "L & T Raintree Boulevard") = true.
Proof. reflexivity. Qed.

Example preferred_random :
  check_preferred_builder (Some "Random Builder Co") = false.
Proof. reflexivity. Qed.

Example rejected_over_budget :
  validate_property Samples.finder_23
    (Samples.with_title_price "Flat" "90 Lac" (Some (Finite (9000000 # 1)))) = false.
Proof. reflexivity. Qed.

Example rejected_bhk_4 :
  validate_property Samples.finder_23
    (set_bhk (Some "4") Samples.row_plain_5m) = false.
Proof. reflexivity. Qed.

Example rejected_not_preferred :
  validate_property (PropertyFinder_init 8000000 ["2"; "3"] "Yes" true)
    Samples.row_plain_5m = false.
Proof. reflexivity. Qed.

(** A run over one MagicBricks page with one card: the record is
    validated, added and returned. *)
Example magicbricks_run_returns_the_card :
  option_map (map property)
    (results
       (Routes.scrape_thread
          {| setup_driver := Ok tt;
             get_99acres := get_99acres Samples.browser_99;
             get_magicbricks :=
               fun n =>
                 {| stop_before := false;
                    fetched :=
                      match n with
                      | 1 => Ok [(false, Samples.card "2 BHK Flat")]
                      | _ => Ok []
                      end |};
             get_housing := get_housing Samples.browser_99;
             stop_after_99acres := false;
             stop_after_magicbricks := false |}
          {| Routes.pages := 3; Routes.job_budget_max := 8000000;
             Routes.job_bhk := ["2"; "3"]; Routes.job_rera := "Yes";
             Routes.job_preferred := false; Routes.job_sites := [] |}
          Routes.fresh_status))
  = Some [Some "2 BHK Flat"].
Proof. reflexivity. Qed.

End SpecExamples.

(** * Further properties of the code *)

(** ** The extractors *)

Section ExtractorFacts.
Import PyStr Extract PriceSpec.

Lemma digits_val_nonneg (s : string) (acc : Z) :
  all_digits s = true -> (0 <= acc)%Z -> (0 <= digits_val acc s)%Z.
Proof.
  revert acc; induction s as [| c r IH]; intros acc A H; cbn [digits_val].
  - exact H.
  - cbn [all_digits] in A; apply andb_true_iff in A as [D A].
    apply IH; [exact A |].
    apply digit_range in D; unfold digit_val; lia.
Qed.

Lemma decimal_nonneg (ip fp : string) :
  all_digits ip = true -> all_digits fp = true -> (0 <= decimal ip fp)%Q.
Proof.
  intros A F; unfold decimal; rewrite Qred_correct.
  unfold Qle; cbn [Qnum Qden]; rewrite Z.mul_1_r, Z.mul_0_l.
  apply digits_val_nonneg; [| lia].
  now rewrite all_digits_app, A, F.
Qed.

Lemma round_pos_nonneg (n d : positive) (v : Q) :
  Binary64.round_pos n d = Some v -> (0 <= v)%Q.
Proof.
  unfold Binary64.round_pos.
  set (e0 := (Z.log2 (Z.pos n) - Z.log2 (Z.pos d))%Z).
  set (e := if (Z.pos d * 2 ^ Z.max 0 e0 <=? Z.pos n * 2 ^ Z.max 0 (- e0))%Z
            then e0 else (e0 - 1)%Z).
  set (s := Z.max (e - 52) (-1074)).
  set (num := (Z.pos n * 2 ^ Z.max 0 (- s))%Z).
  set (den := (Z.pos d * 2 ^ Z.max 0 s)%Z).
  assert (Hnum : (0 <= num)%Z).
  { apply Z.mul_nonneg_nonneg; [lia | apply Z.pow_nonneg; lia]. }
  assert (Hden : (0 < den)%Z).
  { apply Z.mul_pos_pos; [lia | apply Z.pow_pos_nonneg; lia]. }
  assert (Hquo : (0 <= num / den)%Z) by (apply Z.div_pos; assumption).
  set (quo := (num / den)%Z) in *.
  set (m := if (2 * (num mod den) <? den)%Z then quo
            else if (den <? 2 * (num mod den))%Z then (quo + 1)%Z
                 else if Z.even quo then quo else (quo + 1)%Z).
  assert (Hm : (0 <= m)%Z) by (unfold m; case_ifs; lia).
  destruct ((0 <=? s)%Z && (2 ^ 1024 <=? m * 2 ^ s)%Z); [discriminate |].
  intros [= <-]; rewrite Qred_correct.
  destruct (0 <=? s)%Z eqn:S; unfold Qle; cbn [Qnum Qden];
    rewrite Z.mul_0_l, ?Z.mul_1_r; [| exact Hm].
  apply Z.mul_nonneg_nonneg; [exact Hm | apply Z.pow_nonneg; lia].
Qed.

Lemma round64_nonneg (q : Q) :
  (0 <= q)%Q -> Binary64.nonneg (Binary64.round64 q).
Proof.
  destruct q as [n d]; unfold Binary64.round64; cbn [Qnum Qden].
  destruct n as [| n | n]; intros H.
  - cbn; apply Qle_refl.
  - destruct (Binary64.round_pos n d) as [v |] eqn:E; [| exact I].
    cbn; now apply (round_pos_nonneg n d).
  - unfold Qle in H; cbn in H; lia.
Qed.

Lemma fmul_nonneg (v : pyfloat) (k : Z) :
  Binary64.nonneg v -> (0 <= k)%Z -> Binary64.nonneg (fmul v k).
Proof.
  intros V K; destruct v as [q | |]; cbn in *; trivial.
  apply round64_nonneg, Qmult_le_0_compat; [exact V |].
  unfold Qle; cbn; lia.
Qed.

Lemma marker_scale_pos (cleaned : string) : (0 <= marker_scale cleaned)%Z.
Proof. unfold marker_scale; case_ifs; lia. Qed.

(** The price extractor always answers, and never with a negative
    amount. *)
Theorem extract_price_numeric_nonneg (t : option string) :
  exists r,
    extract_price_numeric t = Ok r
    /\ match r with
       | Some (Finite q) => (0 <= q)%Q
       | Some PosInf => True
       | Some NegInf => False
       | None => True
       end.
Proof.
  change (exists r,
            extract_price_numeric t = Ok r
            /\ match r with
               | Some x => Binary64.nonneg x
               | None => True
               end).
  destruct t as [t |]; [| exists None; split; [reflexivity | exact I]].
  destruct (has_digit t) eqn:H.
  - assert (N : t <> EmptyString) by (intros ->; discriminate H).
    destruct (first_number (clean_price t)) as [tok |] eqn:E.
    + destruct (first_number_shape _ _ E) as (ip & fp & Hn & A & F & ->).
      eexists; split.
      * apply (extract_price_numeric_value t (numeral ip fp)); trivial.
        now apply float_numeral.
      * assert (V : Binary64.nonneg
                      (Binary64.round64 (decimal ip (fraction fp)))).
        { apply round64_nonneg, decimal_nonneg; [exact A |].
          destruct fp; [exact F | reflexivity]. }
        unfold scale_value; destruct (_ =? 1)%Z; [exact V |].
        apply fmul_nonneg; [exact V | apply marker_scale_pos].
    + apply first_number_none in E.
      rewrite has_digit_clean_price in E; congruence.
  - exists None; split; [now apply extract_price_numeric_none | exact I].
Qed.

(** *** Letter case *)

Lemma lower_char_idem (c : ascii) : lower_char (lower_char c) = lower_char c.
Proof. destruct c as [[] [] [] [] [] [] [] []]; reflexivity. Qed.

Lemma lower_idem (s : string) : lower (lower s) = lower s.
Proof.
  induction s as [| c r IH]; cbn; [reflexivity |].
  now rewrite lower_char_idem, IH.
Qed.

Lemma lower_empty (s : string) : lower s = EmptyString -> s = EmptyString.
Proof. destruct s; [reflexivity | discriminate]. Qed.

Lemma extract_price_numeric_clean (t u : string) :
  (t = EmptyString <-> u = EmptyString) ->
  clean_price t = clean_price u ->
  extract_price_numeric (Some t) = extract_price_numeric (Some u).
Proof.
  intros E C; destruct t as [| c r], u as [| c' r'].
  - reflexivity.
  - destruct E as [E _]; discriminate (E eq_refl).
  - destruct E as [_ E]; discriminate (E eq_refl).
  - cbn [extract_price_numeric]; now rewrite C.
Qed.

(** The three extractors read their text through [lower] only: two
    texts equal up to letter case get the same answers. *)
Theorem extractors_ignore_case (t u : string) :
  lower t = lower u ->
  extract_price_numeric (Some t) = extract_price_numeric (Some u)
  /\ extract_bhk (Some t) = extract_bhk (Some u)
  /\ check_preferred_builder (Some t) = check_preferred_builder (Some u).
Proof.
  intros L.
  assert (E : t = EmptyString <-> u = EmptyString).
  { split; intros ->; apply lower_empty; [symmetry in L |]; exact L. }
  split; [| split].
  - apply extract_price_numeric_clean; [exact E |].
    unfold clean_price; now rewrite L.
  - destruct t as [| c r], u as [| c' r']; try reflexivity;
      try (destruct E as [E1 E2]; (discriminate (E1 eq_refl)
                                   || discriminate (E2 eq_refl))).
    cbn [extract_bhk]; now rewrite L.
  - destruct t as [| c r], u as [| c' r']; try reflexivity;
      try (destruct E as [E1 E2]; (discriminate (E1 eq_refl)
                                   || discriminate (E2 eq_refl))).
    cbn [check_preferred_builder]; now rewrite L.
Qed.

Lemma extractors_ignore_case_witness :
  extract_price_numeric (Some "2.5 CR") = extract_price_numeric (Some "2.5 cr")
  /\ extract_bhk (Some "2.5 CR") = extract_bhk (Some "2.5 cr")
  /\ check_preferred_builder (Some "2.5 CR")
     = check_preferred_builder (Some "2.5 cr").
Proof. exact (extractors_ignore_case "2.5 CR" "2.5 cr" eq_refl). Defined.

(** *** Text around a builder name *)

Lemma prefix_app (sub t b : string) :
  prefix sub t = true -> prefix sub (t ++ b) = true.
Proof.
  revert t; induction sub as [| c r IH]; intros t;
    [intros _; destruct (t ++ b); reflexivity |].
  destruct t as [| x t']; cbn [prefix append]; [discriminate |].
  destruct (ascii_dec c x); [apply IH | discriminate].
Qed.

Lemma contains_app_r (sub t b : string) :
  contains sub t = true -> contains sub (t ++ b) = true.
Proof.
  induction t as [| x t' IH]; cbn [contains append]; intros H.
  - rewrite orb_false_r in H.
    destruct sub; [| discriminate H].
    destruct b; reflexivity.
  - apply orb_true_iff in H as [H | H].
    + pose proof (prefix_app sub (String x t') b H) as P.
      cbn [append] in P; now rewrite P.
    + rewrite (IH H); apply orb_true_r.
Qed.

Lemma contains_app_l (sub a t : string) :
  contains sub t = true -> contains sub (a ++ t) = true.
Proof.
  intros H; induction a as [| x a' IH]; [exact H |].
  cbn [append contains]; rewrite IH; apply orb_true_r.
Qed.

(** A name that holds a preferred builder keeps holding it when text is
    put before and after it. *)
Theorem check_preferred_builder_embedded (before text after : string) :
  check_preferred_builder (Some text) = true ->
  check_preferred_builder (Some (before ++ text ++ after)) = true.
Proof.
  intros H.
  destruct text as [| c r]; [discriminate H |].
  cbn [check_preferred_builder] in H.
  assert (G : existsb (fun b => contains b (lower (before ++ String c r ++ after)))
                preferred_builders = true).
  { apply existsb_exists in H as (b & Hb & C).
    apply existsb_exists; exists b; split; [exact Hb |].
    rewrite !lower_app; now apply contains_app_l, contains_app_r. }
  destruct (before ++ String c r ++ after) eqn:E; [| exact G].
  destruct before; discriminate E.
Qed.

Lemma check_preferred_builder_embedded_witness :
  check_preferred_builder (Some ("New launch: " ++ "Sobha City" ++ " phase 2"))
  = true.
Proof.
  exact (check_preferred_builder_embedded "New launch: " "Sobha City"
           " phase 2" eq_refl).
Defined.

(** *** Thousands separators *)

Lemma prefix_single (c0 c : ascii) (r : string) :
  prefix (String c0 EmptyString) (String c r) = Ascii.eqb c0 c.
Proof.
  cbn [prefix]; destruct (ascii_dec c0 c) as [-> | N].
  - rewrite Ascii.eqb_refl; now destruct r.
  - symmetry; now apply Ascii.eqb_neq.
Qed.

Lemma replace_single_step (c0 c : ascii) (r : string) :
  replace (String c0 EmptyString) EmptyString (String c r)
  = if Ascii.eqb c0 c
    then replace (String c0 EmptyString) EmptyString r
    else String c (replace (String c0 EmptyString) EmptyString r).
Proof.
  unfold replace; cbn [replace_from]; rewrite prefix_single.
  destruct (Ascii.eqb c0 c); reflexivity.
Qed.

Lemma replace_single_idem (c0 : ascii) (s : string) :
  replace (String c0 EmptyString) EmptyString
    (replace (String c0 EmptyString) EmptyString s)
  = replace (String c0 EmptyString) EmptyString s.
Proof.
  induction s as [| c r IH]; [reflexivity |].
  rewrite replace_single_step; destruct (Ascii.eqb c0 c) eqn:E; [exact IH |].
  now rewrite replace_single_step, E, IH.
Qed.

Lemma comma_lower_char (c : ascii) :
  Ascii.eqb "," (lower_char c) = Ascii.eqb "," c.
Proof. destruct c as [[] [] [] [] [] [] [] []]; reflexivity. Qed.

Lemma replace_comma_lower (s : string) :
  replace "," "" (lower s) = lower (replace "," "" s).
Proof.
  induction s as [| c r IH]; [reflexivity |].
  cbn [lower]; rewrite !replace_single_step, comma_lower_char.
  destruct (Ascii.eqb "," c); [exact IH |].
  cbn [lower]; now rewrite IH.
Qed.

(** Commas carry no meaning in a price: the text read with its commas
    and the text read without them give the same amount. *)
Theorem extract_price_numeric_commas (t : string) :
  extract_price_numeric (Some (replace "," "" t))
  = extract_price_numeric (Some t).
Proof.
  assert (D : has_digit (replace "," "" t) = has_digit t)
    by (apply has_digit_replace; [discriminate | reflexivity]).
  destruct (has_digit t) eqn:H.
  - apply extract_price_numeric_clean.
    + split; intros E; rewrite E in *; discriminate.
    + unfold clean_price.
      now rewrite <- replace_comma_lower, replace_single_idem.
  - transitivity (@Ok (option pyfloat) None).
    + now apply extract_price_numeric_none.
    + symmetry; now apply extract_price_numeric_none.
Qed.

(** *** A title that opens with the bedroom count *)

Lemma lstrip_spaces_app (ws rest : string) :
  all_spaces ws = true ->
  match rest with
  | EmptyString => True
  | String c _ => is_space c = false
  end ->
  lstrip (ws ++ rest) = rest.
Proof.
  intros W R; induction ws as [| c r IH]; cbn [append].
  - destruct rest as [| c r]; [reflexivity |].
    cbn [lstrip]; now rewrite R.
  - cbn [all_spaces] in W; apply andb_true_iff in W as [W1 W2].
    cbn [lstrip]; rewrite W1; now apply IH.
Qed.

Lemma bhk_search_head (s g : string) :
  bhk_at s = Some g -> bhk_search s = Some g.
Proof. intros H; destruct s; cbn [bhk_search]; now rewrite H. Qed.

(** A title made of a number, optional blanks, one of the words bhk,
    bedroom and bh in any letter case, and anything after it, yields
    that number. *)
Theorem extract_bhk_leading (d ws word rest : string) :
  d <> EmptyString -> all_digits d = true -> all_spaces ws = true ->
  In (lower word) ["bhk"; "bedroom"; "bh"] ->
  extract_bhk (Some (d ++ ws ++ word ++ rest)) = Some d.
Proof.
  intros N A W I.
  assert (L : lower (d ++ ws ++ word ++ rest)
              = d ++ ws ++ lower word ++ lower rest).
  { rewrite !lower_app, (lower_plain d (plain_digits d A)),
      (lower_plain ws (plain_spaces ws W)); reflexivity. }
  assert (U : extract_bhk (Some (d ++ ws ++ word ++ rest))
              = bhk_search (lower (d ++ ws ++ word ++ rest)))
    by (destruct d; [congruence | reflexivity]).
  rewrite U, L; apply bhk_search_head; unfold bhk_at.
  assert (B : exists x tl, lower word ++ lower rest = String x tl
                           /\ is_space x = false /\ is_digit x = false).
  { cbn [In] in I; destruct I as [I | [I | [I | []]]]; rewrite <- I;
      cbn [append]; eexists _, _; repeat split. }
  assert (P : (prefix "bhk" (lower word ++ lower rest)
               || prefix "bedroom" (lower word ++ lower rest)
               || prefix "bh" (lower word ++ lower rest)) = true).
  { cbn [In] in I; destruct I as [I | [I | [I | []]]]; rewrite <- I.
    - now rewrite (prefix_app "bhk" "bhk" (lower rest) eq_refl).
    - rewrite (prefix_app "bedroom" "bedroom" (lower rest) eq_refl).
      apply orb_true_iff; left; apply orb_true_r.
    - rewrite (prefix_app "bh" "bh" (lower rest) eq_refl).
      apply orb_true_r. }
  destruct B as (x & tl & E & Sx & Dx).
  rewrite (span_digits_app d (ws ++ lower word ++ lower rest) A).
  - rewrite E in *.
    rewrite (lstrip_spaces_app ws (String x tl) W Sx), P.
    destruct d; [congruence | reflexivity].
  - rewrite E; destruct ws as [| y ws']; cbn [append]; [exact Dx |].
    cbn [all_spaces] in W; apply andb_true_iff in W as [W _].
    destruct (is_digit y) eqn:Dy; [| reflexivity].
    apply digit_not_space in Dy; congruence.
Qed.

Lemma extract_bhk_leading_witness :
  extract_bhk (Some ("3" ++ " " ++ "BHK" ++ " Luxury Apartment")) = Some "3".
Proof.
  exact (extract_bhk_leading "3" " " "BHK" " Luxury Apartment"
           ltac:(discriminate) eq_refl eq_refl (or_introl eq_refl)).
Defined.

End ExtractorFacts.

(** ** The bedroom count of a record *)

Section BhkRule.
Import PyStr Extract BhkSpec.

Lemma prefix_split (p s : string) :
  prefix p s = true -> exists rest, s = p ++ rest.
Proof.
  revert s; induction p as [| c r IH]; intros s; [now exists s |].
  destruct s as [| x t]; cbn [prefix]; [discriminate |].
  destruct (ascii_dec c x) as [<- | N]; [| discriminate].
  intros H; destruct (IH t H) as (rest & ->); now exists rest.
Qed.

Lemma lstrip_split (r : string) :
  exists ws, all_spaces ws = true /\ r = ws ++ lstrip r.
Proof.
  induction r as [| c r (ws & W & E)]; [now exists EmptyString |].
  cbn [lstrip]; destruct (is_space c) eqn:S.
  - exists (String c ws); cbn [all_spaces append]; rewrite S, W.
    split; [reflexivity | congruence].
  - now exists EmptyString.
Qed.

Lemma word_head (word : string) :
  In word words ->
  exists x tl, word = String x tl /\ is_space x = false /\ is_digit x = false.
Proof.
  intros [<- | [<- | [<- | []]]]; eexists _, _; repeat split.
Qed.

Lemma prefix_words (tail : string) :
  prefix "bhk" tail || prefix "bedroom" tail || prefix "bh" tail = true
  <-> exists word rest, In word words /\ tail = word ++ rest.
Proof.
  split.
  - intros H; apply orb_true_iff in H as [H | H];
      [apply orb_true_iff in H as [H | H] |];
      apply prefix_split in H as (rest & ->); eexists _, rest;
      (split; [| reflexivity]); cbn; tauto.
  - intros (word & rest & [<- | [<- | [<- | []]]] & ->).
    + now rewrite (prefix_self_app "bhk" rest).
    + rewrite (prefix_self_app "bedroom" rest); apply orb_true_iff; left.
      apply orb_true_r.
    + rewrite (prefix_self_app "bh" rest); apply orb_true_r.
Qed.

(** The anchored matcher finds what the pattern describes. *)
Lemma bhk_at_iff (s g : string) : bhk_at s = Some g <-> matches_here s g.
Proof.
  unfold bhk_at, matches_here; split.
  - pose proof (span_digits_spec s) as H.
    destruct (span_digits s) as [d r]; destruct H as (E & A & _).
    destruct d as [| c d']; [discriminate |].
    destruct (prefix "bhk" (lstrip r) || prefix "bedroom" (lstrip r)
              || prefix "bh" (lstrip r)) eqn:P; [| discriminate].
    intros [= <-]; split; [discriminate |]; split; [exact A |].
    apply prefix_words in P as (word & rest & I & T).
    destruct (lstrip_split r) as (ws & W & R).
    exists ws, word, rest; repeat split; trivial.
    rewrite E, R at 1; now rewrite T.
  - intros (N & A & ws & word & rest & W & I & ->).
    destruct (word_head word I) as (x & tl & -> & Sx & Dx).
    rewrite (span_digits_app g (ws ++ String x tl ++ rest) A).
    + cbn [append] in *.
      rewrite (lstrip_spaces_app ws (String x (tl ++ rest)) W Sx).
      assert (P : prefix "bhk" (String x (tl ++ rest))
                  || prefix "bedroom" (String x (tl ++ rest))
                  || prefix "bh" (String x (tl ++ rest)) = true)
        by (apply prefix_words; now exists (String x tl), rest).
      rewrite P; destruct g; [congruence | reflexivity].
    + cbn [append]; destruct ws as [| y ws']; cbn [append]; [exact Dx |].
      cbn [all_spaces] in W; apply andb_true_iff in W as [W _].
      destruct (is_digit y) eqn:Dy; [| reflexivity].
      apply digit_not_space in Dy; congruence.
Qed.

Lemma bhk_search_step (c : ascii) (r : string) :
  bhk_at (String c r) = None -> bhk_search (String c r) = bhk_search r.
Proof. intros H; cbn [bhk_search]; now rewrite H. Qed.

(** [bhk_search] finds group 1 of the leftmost match. *)
Lemma bhk_search_iff (s g : string) :
  bhk_search s = Some g <-> first_match s g.
Proof.
  split.
  - induction s as [| c r IH].
    + intros H; exists EmptyString, EmptyString; split; [reflexivity |].
      split.
      * apply bhk_at_iff; cbn [bhk_search] in H.
        destruct (bhk_at EmptyString); [exact H | discriminate].
      * intros [| x p1] [| y p2] g' E N; congruence || discriminate E.
    + destruct (bhk_at (String c r)) as [g0 |] eqn:B.
      * rewrite (bhk_search_head _ _ B); intros [= <-].
        exists EmptyString, (String c r); split; [reflexivity |].
        split; [now apply bhk_at_iff |].
        intros [| x p1] [| y p2] g' E N; congruence || discriminate E.
      * rewrite (bhk_search_step c r B); intros H.
        destruct (IH H) as (pre & tail & -> & M & F).
        exists (String c pre), tail; split; [reflexivity |].
        split; [exact M |].
        intros [| x p1] pre2 g' E N.
        -- cbn [append] in E; subst pre2; cbn [append].
           rewrite <- bhk_at_iff; congruence.
        -- cbn [append] in E; injection E as -> ->.
           now apply (F p1 pre2 g').
  - intros (pre & tail & -> & M & F).
    induction pre as [| c pre IH]; cbn [append].
    + now apply bhk_search_head, bhk_at_iff.
    + assert (B : bhk_at (String c (pre ++ tail)) = None).
      { destruct (bhk_at (String c (pre ++ tail))) as [g' |] eqn:B;
          [| reflexivity].
        apply bhk_at_iff in B.
        now destruct (F EmptyString (String c pre) g' eq_refl ltac:(discriminate)). }
      rewrite (bhk_search_step _ _ B); apply IH.
      intros p1 p2 g' E N; apply (F (String c p1) p2 g'); [| exact N].
      cbn [append]; now rewrite E.
Qed.

Lemma extract_bhk_search (t : string) :
  extract_bhk (Some t) = bhk_search (lower t).
Proof. destruct t; reflexivity. Qed.

(** C4, as the code has it.  Each adapter builds a record for every
    box it is given (99acres unless its budget filter skips the box).
    The record of the 99acres adapter holds one of the five values
    "1", "2", "3", "4" and "Unknown" in [bhk].  The record of the
    MagicBricks or Housing.com adapter, for a card whose title is
    ASCII text, holds in [bhk] group 1 of the leftmost match, in the
    lower-cased title of the record, of a run of digits followed by
    blanks, if any, and one of bhk, bedroom and bh, and [None] when
    the title has no such match: a non-empty run of decimal digits,
    whatever its value. *)
Theorem adapters_bhk_values :
  (forall self prop, exists r, Acres99.fill self prop = Ok r)
  /\ (forall self prop d,
        Acres99.fill self prop = Ok (Some d) ->
        exists v, bhk d = Some v /\ In v ["1"; "2"; "3"; "4"; "Unknown"])
  /\ (forall prop,
        (forall t, title_mb prop = Some t -> TextDomain.ascii_text t = true) ->
        exists d,
          MagicBricks.fill prop = Ok d
          /\ property d = option_map strip (title_mb prop)
          /\ (forall g,
                bhk d = Some g
                <-> first_match (lower (str (property d))) g)
          /\ digit_text (bhk d))
  /\ (forall prop,
        (forall t, title_h prop = Some t -> TextDomain.ascii_text t = true) ->
        exists d,
          Housing.fill prop = Ok d
          /\ property d = option_map strip (title_h prop)
          /\ (forall g,
                bhk d = Some g
                <-> first_match (lower (str (property d))) g)
          /\ digit_text (bhk d)).
Proof.
  repeat split.
  - intros self prop; unfold Acres99.fill.
    destruct (extract_price_numeric_total
                (option_map strip (price_99 prop))) as [pn ->].
    cbn [bind]; match goal with |- context [if ?b then _ else _] =>
                                  destruct b end; eauto.
  - intros self prop d; unfold Acres99.fill.
    destruct (extract_price_numeric_total
                (option_map strip (price_99 prop))) as [pn ->].
    cbn [bind]; match goal with |- context [if ?b then _ else _] =>
                                  destruct b end; [discriminate |].
    intros [= <-]; cbn [bhk]; eexists; split; [reflexivity |].
    apply bhk_found_values.
  - intros prop _; unfold MagicBricks.fill.
    destruct (extract_price_numeric_total
                (option_map strip (price_mb prop))) as [pn ->].
    cbn [bind]; eexists; split; [reflexivity |].
    cbn [bhk property]; split; [reflexivity |].
    split; [| apply extract_bhk_digits].
    intros g; rewrite extract_bhk_search; apply bhk_search_iff.
  - intros prop _; unfold Housing.fill.
    destruct (extract_price_numeric_total
                (option_map strip (price_h prop))) as [pn ->].
    cbn [bind]; eexists; split; [reflexivity |].
    cbn [bhk property]; split; [reflexivity |].
    split; [| apply extract_bhk_digits].
    intros g; rewrite extract_bhk_search; apply bhk_search_iff.
Qed.

Lemma adapters_bhk_values_witness :
  exists d,
    MagicBricks.fill (Samples.card "Villa, 5 BHK") = Ok d
    /\ property d = Some "Villa, 5 BHK"
    /\ (forall g,
          bhk d = Some g <-> first_match (lower (str (property d))) g)
    /\ digit_text (bhk d).
Proof.
  exact (proj1 (proj2 (proj2 adapters_bhk_values))
           (Samples.card "Villa, 5 BHK")
           ltac:(intros t [= <-]; reflexivity)).
Defined.

(** C4 as stated fails: from a card headed "5 BHK Villa" the
    MagicBricks adapter builds a record whose [bhk] is "5", and adds
    it for a finder that wants 5 BHK; from a card headed "Studio
    Apartment" it adds a record whose [bhk] is [None]. *)
Lemma magicbricks_bhk_outside_enumeration :
  exists d n,
    MagicBricks.fill (Samples.card "5 BHK Villa") = Ok d
    /\ bhk d = Some "5"
    /\ ~ In (bhk d) [Some "1"; Some "2"; Some "3"; Some "4"; Some "Unknown"]
    /\ all_data (finder (snd (MagicBricks.listing
                                (Samples.card "5 BHK Villa")
                                (Samples.world_wanting ["5"])))) = [d]
    /\ all_data (finder (snd (MagicBricks.listing
                                (Samples.card "Studio Apartment")
                                (Samples.world_wanting ["2"; "3"])))) = [n]
    /\ bhk n = None.
Proof.
  do 2 eexists; split; [reflexivity |].
  split; [reflexivity |].
  split; [cbn; intuition discriminate |].
  split; [vm_compute; reflexivity |].
  split; vm_compute; reflexivity.
Qed.

End BhkRule.

(** ** The filter *)

Section FilterFacts.
Import Validate.

Lemma exceeds_mono (x : pyfloat) (b b' : Z) :
  (b <= b')%Z -> exceeds x b = false -> exceeds x b' = false.
Proof.
  unfold exceeds; destruct x as [x | |]; cbn; trivial; intros L H.
  apply negb_false_iff in H; apply negb_false_iff.
  apply Qle_bool_iff in H; apply Qle_bool_iff.
  eapply Qle_trans; [exact H |].
  now rewrite <- Zle_Qle.
Qed.

(** A listing accepted under a budget stays accepted under any larger
    one, the other criteria being the same. *)
Theorem validate_budget_monotone (self self' : PropertyFinder)
  (d : property_data) :
  bedrooms self' = bedrooms self ->
  preferred_only self' = preferred_only self ->
  (0 < budget_max self <= budget_max self')%Z ->
  validate_property self d = true -> validate_property self' d = true.
Proof.
  intros B P [L0 L]; unfold validate_property.
  assert (Hb : bhk_check self' d = bhk_check self d)
    by (unfold bhk_check; now rewrite B).
  assert (Hp : preferred_check self' d = preferred_check self d)
    by (unfold preferred_check; now rewrite P).
  rewrite Hb, Hp.
  destruct (price_check self d) eqn:C; [discriminate |].
  intros H.
  assert (C' : price_check self' d = false); [| now rewrite C'].
  revert C; unfold price_check, truthy_int.
  destruct (Z.eqb_spec (budget_max self) 0) as [E | _]; [lia |].
  destruct (Z.eqb_spec (budget_max self') 0) as [E | _]; [lia |].
  cbn [negb andb].
  destruct (truthy_float (price_numeric d)); [| reflexivity].
  destruct (price_numeric d) as [x |]; [| reflexivity].
  now apply exceeds_mono.
Qed.

Lemma validate_budget_monotone_witness :
  validate_property (PropertyFinder_init 9000000 ["2"; "3"] "Yes" false)
    Samples.row_plain_5m = true.
Proof.
  exact (validate_budget_monotone Samples.finder_23
           (PropertyFinder_init 9000000 ["2"; "3"] "Yes" false)
           Samples.row_plain_5m eq_refl eq_refl
           ltac:(split; [reflexivity | discriminate])
           eq_refl).
Defined.

End FilterFacts.

(** ** Links and search URLs *)

Section UrlFacts.
Import PyStr.



Lemma append_inv_head (a x y : string) : a ++ x = a ++ y -> x = y.
Proof.
  induction a as [| c r IH]; cbn [append]; [trivial |].
  intros [= H]; now apply IH.
Qed.

Lemma string_of_nat_inj (n m : nat) : string_of_nat n = string_of_nat m -> n = m.
Proof.
  unfold string_of_nat; intros H.
  apply DecimalNat.Unsigned.to_uint_inj.
  assert (E : Some (Nat.to_uint n) = Some (Nat.to_uint m))
    by (rewrite <- !NilEmpty.usu; now rewrite H).
  now injection E.
Qed.

Lemma paging_inj (sep : string) (p q : nat) :
  (1 <= p)%nat -> (1 <= q)%nat ->
  (if (1 <? p)%nat then sep ++ string_of_nat p else EmptyString)
  = (if (1 <? q)%nat then sep ++ string_of_nat q else EmptyString) ->
  sep <> EmptyString -> p = q.
Proof.
  intros Hp Hq E N.
  destruct (Nat.ltb_spec 1 p), (Nat.ltb_spec 1 q).
  - apply append_inv_head in E; now apply string_of_nat_inj.
  - destruct sep; [congruence | discriminate E].
  - destruct sep; [congruence | discriminate E].
  - lia.
Qed.

Lemma build_99acres_url_split (self : PropertyFinder) (p : nat) :
  Urls.build_99acres_url self p
  = (Urls.base_99acres ++ "?city=20&bedroom_num=" ++ Urls.bedroom_str self
     ++ "&preference=S&area_unit=1&res_com=R")
    ++ (if (1 <? p)%nat then "&page=" ++ string_of_nat p else EmptyString).
Proof.
  unfold Urls.build_99acres_url, Urls.base_99acres.
  destruct (1 <? p)%nat; cbn [app Urls.join append];
    rewrite ?append_assoc; cbn [append]; rewrite ?append_nil_r; reflexivity.
Qed.

(** From page 1 on, each builder gives different pages different
    URLs, so that paging does move on; page 1 is the bare search URL. *)
Theorem search_urls_distinct (self : PropertyFinder) (p q : nat) :
  (1 <= p)%nat -> (1 <= q)%nat ->
  (Urls.build_99acres_url self p = Urls.build_99acres_url self q -> p = q)
  /\ (Urls.build_magicbricks_url p = Urls.build_magicbricks_url q -> p = q)
  /\ (Urls.build_housing_url p = Urls.build_housing_url q -> p = q)
  /\ Urls.build_magicbricks_url 1 = Urls.base_magicbricks
  /\ Urls.build_housing_url 1 = Urls.base_housing.
Proof.
  intros Hp Hq; repeat split.
  - rewrite !build_99acres_url_split; intros E.
    apply append_inv_head in E.
    apply (paging_inj "&page=" p q Hp Hq E); discriminate.
  - unfold Urls.build_magicbricks_url; intros E.
    apply (paging_inj "?page=" p q Hp Hq); [| discriminate].
    apply (append_inv_head Urls.base_magicbricks).
    destruct (1 <? p)%nat, (1 <? q)%nat; rewrite ?append_nil_r; exact E.
  - unfold Urls.build_housing_url; intros E.
    apply (paging_inj "?page=" p q Hp Hq); [| discriminate].
    apply (append_inv_head Urls.base_housing).
    destruct (1 <? p)%nat, (1 <? q)%nat; rewrite ?append_nil_r; exact E.
Qed.

Lemma search_urls_distinct_witness : 2 = 2.
Proof.
  exact (proj1 (proj2 (search_urls_distinct Samples.finder_23 2 2
                         ltac:(repeat constructor) ltac:(repeat constructor)))
           eq_refl).
Defined.

(** *** The bedroom list, from the request to the URL *)

Lemma split_comma_nonempty (cur s : string) : Routes.split_comma cur s <> [].
Proof.
  revert cur; induction s as [| c r IH]; intros cur; cbn [Routes.split_comma].
  - discriminate.
  - destruct (Ascii.eqb c ","); [discriminate | apply IH].
Qed.

Lemma join_cons (sep x : string) (l : list string) :
  l <> [] -> Urls.join sep (x :: l) = x ++ sep ++ Urls.join sep l.
Proof. destruct l; [congruence | reflexivity]. Qed.

(** Splitting at the commas and joining with commas gives the text
    back. *)
Lemma join_split_comma (cur s : string) :
  Urls.join "," (Routes.split_comma cur s) = cur ++ s.
Proof.
  revert cur; induction s as [| c r IH]; intros cur; cbn [Routes.split_comma].
  - cbn [Urls.join]; now rewrite append_nil_r.
  - destruct (Ascii.eqb_spec c ",") as [-> | N].
    + rewrite join_cons by apply split_comma_nonempty.
      now rewrite IH.
    + rewrite IH, append_assoc; reflexivity.
Qed.

Lemma lstrip_no_space (s : string) : Urls.no_space s -> lstrip s = s.
Proof.
  unfold Urls.no_space; destruct s as [| c r]; [reflexivity |].
  cbn [all_chars lstrip]; intros H; apply andb_true_iff in H as [H _].
  apply negb_true_iff in H; now rewrite H.
Qed.

Lemma strip_no_space (s : string) : Urls.no_space s -> strip s = s.
Proof.
  intros H; unfold strip; rewrite (lstrip_no_space s H).
  now apply rstrip_no_space.
Qed.

Lemma split_comma_no_space (cur s : string) :
  Urls.no_space cur -> Urls.no_space s ->
  Forall Urls.no_space (Routes.split_comma cur s).
Proof.
  unfold Urls.no_space; revert cur; induction s as [| c r IH]; intros cur C S;
    cbn [Routes.split_comma].
  - now repeat constructor.
  - cbn [all_chars] in S; apply andb_true_iff in S as [S1 S2].
    destruct (Ascii.eqb c ",").
    + constructor; [exact C | now apply IH].
    + apply IH; [| exact S2].
      rewrite all_chars_app, C; cbn [all_chars]; now rewrite S1.
Qed.

(** A bedroom list sent as comma-separated ASCII text without blanks
    reaches the 99acres search URL as the very same text: it is the
    value of [bedroom_num] in the URL of every page. *)
Theorem bedroom_text_reaches_url (data : Routes.start_request)
  (st : scraping_status) (text : string) :
  running st = false ->
  Routes.req_bhk data = Some (inl text) ->
  TextDomain.ascii_text text = true ->
  Urls.no_space text ->
  exists j,
    snd (Routes.start_scraping data st) = Some j
    /\ Urls.bedroom_str (Routes.make_finder j) = text
    /\ forall p,
         Urls.build_99acres_url (Routes.make_finder j) p
         = ("https://www.99acres.com/property-in-bangalore-ffid"
            ++ "?city=20&bedroom_num=" ++ text
            ++ "&preference=S&area_unit=1&res_com=R")
           ++ (if (1 <? p)%nat then "&page=" ++ string_of_nat p
               else EmptyString).
Proof.
  intros R B A N; unfold Routes.start_scraping; rewrite R, B; cbn [snd].
  eexists; split; [reflexivity |].
  match goal with |- ?P /\ _ => assert (E : P) end.
  { unfold Urls.bedroom_str, Routes.make_finder, PropertyFinder_init.
    cbn [bedrooms Routes.job_bhk Routes.get_default].
    assert (M : map strip (Routes.split_comma EmptyString text)
                = Routes.split_comma EmptyString text).
    { pose proof (split_comma_no_space EmptyString text eq_refl N) as F.
      induction F as [| x l Hx _ IH]; [reflexivity |].
      cbn [map]; now rewrite (strip_no_space x Hx), IH. }
    rewrite M; apply join_split_comma. }
  split; [exact E |].
  intros p; rewrite build_99acres_url_split, E; reflexivity.
Qed.

Lemma bedroom_text_reaches_url_witness :
  exists j,
    snd (Routes.start_scraping MoreSamples.request_bhk_text
           Samples.idle_status) = Some j
    /\ Urls.bedroom_str (Routes.make_finder j) = "2,3"
    /\ forall p,
         Urls.build_99acres_url (Routes.make_finder j) p
         = ("https://www.99acres.com/property-in-bangalore-ffid"
            ++ "?city=20&bedroom_num=" ++ "2,3"
            ++ "&preference=S&area_unit=1&res_com=R")
           ++ (if (1 <? p)%nat then "&page=" ++ string_of_nat p
               else EmptyString).
Proof.
  exact (bedroom_text_reaches_url MoreSamples.request_bhk_text
           Samples.idle_status "2,3" eq_refl eq_refl eq_refl eq_refl).
Defined.

End UrlFacts.

(** ** Aggregating twice *)

Section AggregateAgain.
Import Aggregate RunInvariant.

Lemma same_key_refl (r : property_data) : same_key r r = true.
Proof. apply same_key_iff; split; reflexivity. Qed.

Lemma same_key_sym (a b : property_data) : same_key a b = same_key b a.
Proof.
  destruct (same_key a b) eqn:A, (same_key b a) eqn:B; trivial.
  - apply same_key_iff in A as [A1 A2].
    assert (same_key b a = true) by (apply same_key_iff; split; congruence).
    congruence.
  - apply same_key_iff in B as [B1 B2].
    assert (same_key a b = true) by (apply same_key_iff; split; congruence).
    congruence.
Qed.

Lemma existsb_filter_nil (p : property_data -> bool) (l : list property_data) :
  filter p l = [] -> existsb p l = false.
Proof.
  induction l as [| x t IH]; cbn; [reflexivity |].
  destruct (p x); [discriminate | exact IH].
Qed.

Lemma one_per_key_distinct (l : list property_data) :
  one_per_key l -> distinct_keys l.
Proof.
  induction l as [| r rest IH]; intros D; cbn [distinct_keys]; [exact I |].
  split.
  - apply existsb_filter_nil.
    specialize (D r); cbn [filter] in D; rewrite same_key_refl in D.
    cbn [List.length] in D.
    destruct (filter (same_key r) rest); [reflexivity | cbn in D; lia].
  - apply IH; intros k; specialize (D k); cbn [filter] in D.
    destruct (same_key k r); cbn [List.length] in D; lia.
Qed.

Lemma drop_from_distinct (l seen : list property_data) :
  distinct_keys l ->
  (forall r, In r l -> existsb (same_key r) seen = false) ->
  drop_from seen l = l.
Proof.
  revert seen; induction l as [| r rest IH]; intros seen D S; [reflexivity |].
  destruct D as [D1 D2]; cbn [drop_from].
  rewrite (S r (or_introl eq_refl)); f_equal.
  apply IH; [exact D2 |].
  intros x Hx; cbn [existsb]; rewrite (S x (or_intror Hx)), orb_false_r.
  rewrite same_key_sym.
  destruct (same_key r x) eqn:E; [| reflexivity].
  assert (existsb (same_key r) rest = true)
    by (apply existsb_exists; exists x; split; assumption).
  congruence.
Qed.

Lemma sort_values_sorted_id (l : list property_data) :
  StronglySorted ordered l -> sort_values l = l.
Proof.
  induction 1 as [| r t S IH F]; [reflexivity |].
  cbn [sort_values]; rewrite IH.
  destruct t as [| x t']; [reflexivity |].
  cbn [insert]; inversion F as [| ? ? Hx _]; subst.
  unfold ordered in Hx; now rewrite Hx.
Qed.

Lemma one_per_key_drop_duplicates (l : list property_data) :
  one_per_key (drop_duplicates l).
Proof.
  intros k; unfold drop_duplicates; rewrite filter_drop_from; cbn [existsb].
  unfold first_with_key; destruct (find (same_key k) l); cbn; lia.
Qed.

Lemma drop_from_length (l seen : list property_data) :
  (List.length (drop_from seen l) <= List.length l)%nat.
Proof.
  revert seen; induction l as [| r rest IH]; intros seen; cbn [drop_from];
    [reflexivity |].
  destruct (existsb (same_key r) seen); cbn [List.length].
  - specialize (IH seen); lia.
  - specialize (IH (r :: seen)); lia.
Qed.

(** The table [get_results_df] returns has pairwise different keys, is
    no longer than the table it was given, and is left as it is by a
    second aggregation. *)
Theorem get_results_df_idempotent (self : PropertyFinder) :
  distinct_keys (get_results_df self)
  /\ (List.length (get_results_df self) <= List.length (all_data self))%nat
  /\ get_results_df (set_all_data (get_results_df self) self)
     = get_results_df self.
Proof.
  assert (O : one_per_key (get_results_df self)).
  { rewrite get_results_df_eq; intros k.
    rewrite <- (Permutation_length
                  (filter_perm (same_key k) _ _
                     (sort_values_perm (drop_duplicates (all_data self))))).
    apply one_per_key_drop_duplicates. }
  split; [now apply one_per_key_distinct |].
  split.
  - rewrite get_results_df_eq.
    rewrite <- (Permutation_length (sort_values_perm _)).
    apply drop_from_length.
  - rewrite (get_results_df_eq (set_all_data _ _)); cbn [all_data set_all_data].
    unfold drop_duplicates at 1.
    rewrite drop_from_distinct;
      [| now apply one_per_key_distinct | reflexivity].
    apply sort_values_sorted_id.
    rewrite get_results_df_eq; apply sort_values_sorted.
Qed.

End AggregateAgain.

(** ** What a run returns *)

Section RunFacts.
Import RunInvariant.

Variable self0 : PropertyFinder.

Lemma validate_same_criteria (self : PropertyFinder) (d : property_data) :
  bedrooms self = bedrooms self0 ->
  budget_max self = budget_max self0 ->
  preferred_only self = preferred_only self0 ->
  Validate.validate_property self d = Validate.validate_property self0 d.
Proof.
  intros B M P.
  unfold Validate.validate_property, Validate.price_check, Validate.bhk_check,
    Validate.preferred_check.
  now rewrite B, M, P.
Qed.

Lemma step_ret : step self0 (ret tt).
Proof. intros w H; exists w; split; [reflexivity | exact H]. Qed.

Lemma step_bind (m : M unit) (k : unit -> M unit) :
  step self0 m -> (forall u, step self0 (k u)) -> step self0 (bindM m k).
Proof.
  intros Hm Hk w H; unfold bindM.
  destruct (Hm w H) as (w1 & -> & H1).
  exact (Hk tt w1 H1).
Qed.

Lemma step_read_status (k : scraping_status -> M unit) :
  (forall st, step self0 (k st)) -> step self0 (bindM read_status k).
Proof. intros Hk w H; unfold bindM, read_status; now apply Hk. Qed.

Lemma step_modify_status (f : scraping_status -> scraping_status) :
  (forall st, results (f st) = results st) ->
  (forall st, properties_found (f st) = properties_found st) ->
  step self0 (modify_status f).
Proof.
  intros R P w (B & M & O & V & N & C).
  eexists; split; [reflexivity |].
  unfold holds; cbn [finder status]; rewrite R, P; repeat split; assumption.
Qed.

Lemma step_interrupt (b : bool) : step self0 (interrupt b).
Proof.
  destruct b; cbn [interrupt]; [| apply step_ret].
  apply step_modify_status; intros st; unfold stop_status;
    now destruct (running st).
Qed.

Lemma step_when (c : bool) (m : M unit) :
  step self0 m -> step self0 (when c m).
Proof. destruct c; cbn [when]; [trivial | intros _; apply step_ret]. Qed.

Lemma step_try_except (m : M unit) (h : exn -> M unit) :
  safe self0 m -> (forall e, step self0 (h e)) -> step self0 (try_except m h).
Proof.
  intros Hm Hh w H; unfold try_except.
  specialize (Hm w H); destruct (m w) as [[[] | e] w1]; cbn [snd] in Hm.
  - exists w1; split; [reflexivity | exact Hm].
  - exact (Hh e w1 Hm).
Qed.

Lemma step_try_finally (m f : M unit) :
  step self0 m -> step self0 f -> step self0 (try_finally m f).
Proof.
  intros Hm Hf w H; unfold try_finally.
  destruct (Hm w H) as (w1 & -> & H1).
  destruct (Hf w1 H1) as (w2 & -> & H2).
  exists w2; split; [reflexivity | exact H2].
Qed.

Lemma step_safe (m : M unit) : step self0 m -> safe self0 m.
Proof. intros S w H; destruct (S w H) as (w' & -> & H'); exact H'. Qed.

Lemma step_for_boxes {B : Type} (body : B -> M unit) (boxes : list (bool * B)) :
  (forall prop, safe self0 (body prop)) -> step self0 (for_boxes body boxes).
Proof.
  intros Hb; induction boxes as [| [stop prop] rest IH]; cbn [for_boxes].
  - apply step_ret.
  - apply step_bind; [apply step_interrupt | intros _].
    apply step_read_status; intros st.
    destruct (negb (running st)); [apply step_ret |].
    apply step_bind; [| intros _; exact IH].
    apply step_try_except; [apply Hb | intros _; apply step_ret].
Qed.

(** A listing that passes the filter is added; the invariant is kept
    either way. *)
Lemma safe_validate_and_add (site : string) (d : property_data) :
  source d = None -> safe self0 (validate_and_add site d).
Proof.
  intros Sd w (B & M & O & V & N & C).
  unfold validate_and_add, bindM, read_self.
  rewrite (validate_same_criteria (finder w) d B M O).
  destruct (Validate.validate_property self0 d) eqn:E;
    [| cbn; repeat split; assumption].
  cbn [Store.call_add_property]; unfold Store.add_property, bindM,
    modify_self, read_status; cbn [fst snd finder status].
  destruct (results (status w)) as [rs |] eqn:R; [| congruence].
  cbn; repeat split; trivial; try discriminate.
  apply Forall_app; split; [exact V |].
  constructor; [split; assumption | constructor].
Qed.

Lemma safe_listing_magicbricks (prop : box_magicbricks) :
  safe self0 (MagicBricks.listing prop).
Proof.
  intros w H; unfold MagicBricks.listing, bindM, lift.
  destruct (MagicBricks.fill prop) as [d | e] eqn:E; [| exact H].
  apply safe_validate_and_add; [| exact H].
  unfold MagicBricks.fill in E.
  destruct (Extract.extract_price_numeric _); [| discriminate].
  now injection E as <-.
Qed.

Lemma safe_listing_housing (prop : box_housing) :
  safe self0 (Housing.listing prop).
Proof.
  intros w H; unfold Housing.listing, bindM, lift.
  destruct (Housing.fill prop) as [d | e] eqn:E; [| exact H].
  apply safe_validate_and_add; [| exact H].
  unfold Housing.fill in E.
  destruct (Extract.extract_price_numeric _); [| discriminate].
  now injection E as <-.
Qed.

Lemma safe_listing_99acres (prop : box_99acres) :
  safe self0 (Acres99.listing prop).
Proof.
  intros w H; now rewrite listing_99acres_state.
Qed.

Lemma step_pages_until_empty {B : Type} (label : string)
  (listing : B -> M unit) (get : nat -> page B)
  (max_pages remaining page_no : nat) :
  (forall prop, safe self0 (listing prop)) ->
  step self0
    (scrape_pages_until_empty label listing get max_pages page_no remaining).
Proof.
  intros Hl; revert page_no; induction remaining as [| k IH]; intros page_no;
    cbn [scrape_pages_until_empty].
  - apply step_ret.
  - apply step_bind; [apply step_interrupt | intros _].
    apply step_read_status; intros st.
    destruct (negb (running st)); [apply step_ret |].
    apply step_bind; [now apply step_modify_status | intros _].
    intros w H; unfold bindM at 1, try_except, bindM at 1, lift.
    destruct (fetched (get page_no)) as [[| b boxes] | e].
    + exists w; split; [reflexivity | exact H].
    + destruct (step_for_boxes listing (b :: boxes) Hl w H) as (w1 & E & H1).
      unfold bindM; rewrite E; cbn.
      exact (IH (S page_no) w1 H1).
    + cbn; exact (IH (S page_no) w H).
Qed.

Lemma step_pages_99acres (get : nat -> page box_99acres)
  (max_pages remaining page_no : nat) :
  step self0 (Acres99.scrape_pages get max_pages page_no remaining).
Proof.
  revert page_no; induction remaining as [| k IH]; intros page_no;
    cbn [Acres99.scrape_pages].
  - apply step_ret.
  - apply step_bind; [apply step_interrupt | intros _].
    apply step_read_status; intros st.
    destruct (negb (running st)); [apply step_ret |].
    apply step_bind; [now apply step_modify_status | intros _].
    apply step_bind; [| intros _; apply IH].
    apply step_try_except; [| intros _; apply step_ret].
    intros w H; unfold bindM, lift.
    destruct (fetched (get page_no)) as [boxes | e]; cbn [snd]; [| exact H].
    apply step_safe; [| exact H].
    apply step_for_boxes, safe_listing_99acres.
Qed.

(** [scrape_all] fails to start the driver, leaving everything as it
    was, or ends normally with the invariant kept. *)
Lemma scrape_all_invariant (br : browser) (n : nat)
  (sites : list (string * bool)) (w : world) :
  holds self0 w ->
  (exists e, scrape_all br n sites w = (Raise e, w))
  \/ (exists w', scrape_all br n sites w = (Ok tt, w') /\ holds self0 w').
Proof.
  intros H; unfold scrape_all, bindM at 1, lift.
  destruct (setup_driver br) as [[] | e]; [right | left; eauto].
  match goal with |- exists w', ?m w = _ /\ _ => assert (K : step self0 m) end.
  { apply step_bind; [exact step_ret | intros _].
    apply step_try_finally; [| apply step_ret].
    { apply step_read_status; intros st.
      apply step_bind; [apply step_when | intros _].
      { unfold Acres99.scrape_99acres.
        apply step_bind; [now apply step_modify_status | intros _].
        apply step_pages_99acres. }
      apply step_bind; [apply step_interrupt | intros _].
      apply step_read_status; intros st1.
      apply step_bind; [apply step_when | intros _].
      { unfold MagicBricks.scrape_magicbricks.
        apply step_bind; [now apply step_modify_status | intros _].
        apply step_pages_until_empty, safe_listing_magicbricks. }
      apply step_bind; [apply step_interrupt | intros _].
      apply step_read_status; intros st2.
      apply step_when.
      unfold Housing.scrape_housing.
      apply step_bind; [now apply step_modify_status | intros _].
      apply step_pages_until_empty, safe_listing_housing. } }
  exact (K w H).
Qed.

End RunFacts.

Section RunOutcome.
Import RunInvariant Aggregate.

Lemma get_results_df_incl (self : PropertyFinder) (r : property_data) :
  In r (get_results_df self) -> In r (all_data self).
Proof.
  rewrite get_results_df_eq; intros H.
  apply (Permutation_in r (Permutation_sym (sort_values_perm _))) in H.
  eapply drop_from_incl; exact H.
Qed.

Lemma get_results_df_length (self : PropertyFinder) :
  (List.length (get_results_df self) <= List.length (all_data self))%nat.
Proof.
  rewrite get_results_df_eq, <- (Permutation_length (sort_values_perm _)).
  apply drop_from_length.
Qed.

(** What the worker leaves behind, whatever the browser showed it. *)
Lemma scrape_thread_outcome (br : browser) (j : Routes.job)
  (st : scraping_status) :
  properties_found st = 0%nat ->
  exists rows,
    results (Routes.scrape_thread br j st) = Some rows
    /\ running (Routes.scrape_thread br j st) = false
    /\ Forall (row_ok (Routes.make_finder j)) rows
    /\ StronglySorted ordered rows
    /\ (List.length rows
        <= properties_found (Routes.scrape_thread br j st))%nat.
Proof.
  intros P0; unfold Routes.scrape_thread; cbv zeta.
  unfold try_finally, try_except, bindM.
  assert (H0 : holds (Routes.make_finder j)
                 {| finder := Routes.make_finder j;
                    status := set_results (Some []) st |}).
  { unfold holds; cbn; repeat split; trivial; discriminate. }
  destruct (scrape_all_invariant (Routes.make_finder j) br
              (Z.to_nat (Routes.pages j)) (Routes.job_sites j) _ H0)
    as [(e & ->) | (w' & -> & (B & M & O & V & N & C))].
  - exists []; cbn.
    split; [reflexivity |]; split; [reflexivity |].
    split; [constructor |]; split; [constructor | apply Nat.le_0_l].
  - unfold read_self, modify_status; cbn [fst snd status finder].
    exists (get_results_df (finder w')); cbn.
    split; [reflexivity |]; split; [reflexivity |].
    split; [| split].
    + rewrite Forall_forall in *; intros r Hr.
      apply V; now apply get_results_df_incl.
    + rewrite get_results_df_eq; apply sort_values_sorted.
    + rewrite C; apply get_results_df_length.
Qed.

(** From an accepted start request to the end of the run: the run ends
    with [running] false and a result list in which every row passes
    the filter under the criteria of the request and has an empty
    source column, the rows are in sorted order, and the counter of
    found properties is at least the number of rows (it counts
    duplicates too). *)
Theorem run_results_meet_criteria (data : Routes.start_request)
  (st : scraping_status) (br : browser) :
  running st = false ->
  exists st1 j rows,
    Routes.start_scraping data st
    = ({| Routes.code := 200; Routes.body := Routes.JsonStatus "started" |},
       st1, Some j)
    /\ results (Routes.scrape_thread br j st1) = Some rows
    /\ running (Routes.scrape_thread br j st1) = false
    /\ Forall (row_ok (Routes.make_finder j)) rows
    /\ StronglySorted ordered rows
    /\ (List.length rows
        <= properties_found (Routes.scrape_thread br j st1))%nat.
Proof.
  intros R; unfold Routes.start_scraping; rewrite R.
  exists Routes.fresh_status; eexists.
  lazymatch goal with
  | |- exists rows, (_, _, Some ?j0) = _ /\ _ =>
      destruct (scrape_thread_outcome br j0 Routes.fresh_status eq_refl)
        as (rows & H)
  end.
  exists rows; split; [reflexivity | exact H].
Qed.

Lemma run_results_meet_criteria_witness :
  exists st1 j rows,
    Routes.start_scraping Samples.request_budget_80 Samples.idle_status
    = ({| Routes.code := 200; Routes.body := Routes.JsonStatus "started" |},
       st1, Some j)
    /\ results (Routes.scrape_thread Samples.browser_99 j st1) = Some rows
    /\ running (Routes.scrape_thread Samples.browser_99 j st1) = false
    /\ Forall (row_ok (Routes.make_finder j)) rows
    /\ StronglySorted ordered rows
    /\ (List.length rows
        <= properties_found
             (Routes.scrape_thread Samples.browser_99 j st1))%nat.
Proof.
  exact (run_results_meet_criteria Samples.request_budget_80
           Samples.idle_status Samples.browser_99 eq_refl).
Defined.

End RunOutcome.

(** ** Stopping, failing pages and empty pages *)

Section LoopFacts.
Import RunInvariant.

Lemma interrupt_idle (b : bool) (w : world) :
  running (status w) = false -> interrupt b w = (Ok tt, w).
Proof.
  intros R; destruct w as [f st]; cbn [status] in R.
  destruct b; cbn [interrupt]; [| reflexivity].
  unfold modify_status, stop_status; cbn [finder status]; now rewrite R.
Qed.

Lemma interrupt_stops (w : world) :
  exists w', interrupt true w = (Ok tt, w') /\ running (status w') = false.
Proof.
  eexists; split; [reflexivity |].
  cbn [status]; unfold stop_status.
  destruct (running (status w)) eqn:R; [reflexivity | exact R].
Qed.

(** A stop request ends the box loop on the spot: the box it comes
    before and every box after it are left alone, whatever they are. *)
Theorem stop_ends_the_box_loop {B : Type} (body : B -> M unit)
  (before : list (bool * B)) (b b' : B) (after after' : list (bool * B))
  (w : world) :
  for_boxes body (before ++ (true, b) :: after) w
  = for_boxes body (before ++ (true, b') :: after') w.
Proof.
  revert w; induction before as [| [stop prop] rest IH]; intros w;
    cbn [app for_boxes]; unfold bindM.
  - destruct (interrupt_stops w) as (w1 & -> & R).
    unfold read_status; now rewrite R.
  - destruct (interrupt stop w) as [[[] | e] w1]; [| reflexivity].
    unfold read_status.
    destruct (negb (running (status w1))); [reflexivity |].
    destruct (try_except (body prop) (fun _ => ret tt) w1) as [[[] | e] w2];
      [apply IH | reflexivity].
Qed.

(** Once the run is no longer running, [scrape_all] visits no site: it
    starts the driver and gives the state back as it got it. *)
Theorem scrape_all_when_stopped (br : browser) (n : nat)
  (sites : list (string * bool)) (w : world) :
  running (status w) = false ->
  scrape_all br n sites w
  = (match setup_driver br with
     | Ok _ => Ok tt
     | Raise e => Raise e
     end, w).
Proof.
  intros R; unfold scrape_all, bindM at 1, lift.
  destruct (setup_driver br) as [[] | e]; [| reflexivity].
  unfold try_finally, bindM, read_status.
  rewrite R, !andb_false_r; cbn [when ret].
  rewrite (interrupt_idle _ w R), R, !andb_false_r; cbn [when ret].
  rewrite (interrupt_idle _ w R), R, !andb_false_r; reflexivity.
Qed.

Lemma scrape_all_when_stopped_witness :
  scrape_all Samples.browser_99 3 []
    {| finder := Samples.finder_23; status := Samples.idle_status |}
  = (Ok tt, {| finder := Samples.finder_23; status := Samples.idle_status |}).
Proof.
  exact (scrape_all_when_stopped Samples.browser_99 3 []
           {| finder := Samples.finder_23; status := Samples.idle_status |}
           eq_refl).
Defined.

(** *** Errors are absorbed *)

Lemma ends_ret : ends (ret tt).
Proof. intros w; now exists w. Qed.

Lemma ends_bind (m : M unit) (k : unit -> M unit) :
  ends m -> (forall u, ends (k u)) -> ends (bindM m k).
Proof.
  intros Hm Hk w; unfold bindM.
  destruct (Hm w) as (w1 & ->); exact (Hk tt w1).
Qed.

Lemma ends_read_status (k : scraping_status -> M unit) :
  (forall st, ends (k st)) -> ends (bindM read_status k).
Proof. intros Hk w; unfold bindM, read_status; apply Hk. Qed.

Lemma ends_modify_status (f : scraping_status -> scraping_status) :
  ends (modify_status f).
Proof. intros w; eexists; reflexivity. Qed.

Lemma ends_interrupt (b : bool) : ends (interrupt b).
Proof. destruct b; [apply ends_modify_status | apply ends_ret]. Qed.

Lemma ends_when (c : bool) (m : M unit) : ends m -> ends (when c m).
Proof. destruct c; cbn [when]; [trivial | intros _; apply ends_ret]. Qed.

Lemma ends_try_except (m : M unit) (h : exn -> M unit) :
  (forall e, ends (h e)) -> ends (try_except m h).
Proof.
  intros Hh w; unfold try_except.
  destruct (m w) as [[[] | e] w1]; [now exists w1 | apply Hh].
Qed.

Lemma ends_for_boxes {B : Type} (body : B -> M unit) (boxes : list (bool * B)) :
  ends (for_boxes body boxes).
Proof.
  induction boxes as [| [stop prop] rest IH]; cbn [for_boxes].
  - apply ends_ret.
  - apply ends_bind; [apply ends_interrupt | intros _].
    apply ends_read_status; intros st.
    destruct (negb (running st)); [apply ends_ret |].
    apply ends_bind; [| intros _; exact IH].
    apply ends_try_except; intros _; apply ends_ret.
Qed.

Lemma ends_pages_until_empty {B : Type} (label : string)
  (listing : B -> M unit) (get : nat -> page B)
  (max_pages remaining page_no : nat) :
  ends (scrape_pages_until_empty label listing get max_pages page_no remaining).
Proof.
  revert page_no; induction remaining as [| k IH]; intros page_no;
    cbn [scrape_pages_until_empty].
  - apply ends_ret.
  - apply ends_bind; [apply ends_interrupt | intros _].
    apply ends_read_status; intros st.
    destruct (negb (running st)); [apply ends_ret |].
    apply ends_bind; [apply ends_modify_status | intros _].
    intros w; unfold bindM at 1, try_except, bindM at 1, lift.
    destruct (fetched (get page_no)) as [[| b boxes] | e].
    + now exists w.
    + destruct (ends_for_boxes listing (b :: boxes) w) as (w1 & E).
      unfold bindM; rewrite E; cbn; apply IH.
    + cbn; apply IH.
Qed.

Lemma ends_pages_99acres (get : nat -> page box_99acres)
  (max_pages remaining page_no : nat) :
  ends (Acres99.scrape_pages get max_pages page_no remaining).
Proof.
  revert page_no; induction remaining as [| k IH]; intros page_no;
    cbn [Acres99.scrape_pages].
  - apply ends_ret.
  - apply ends_bind; [apply ends_interrupt | intros _].
    apply ends_read_status; intros st.
    destruct (negb (running st)); [apply ends_ret |].
    apply ends_bind; [apply ends_modify_status | intros _].
    apply ends_bind; [| intros _; apply IH].
    apply ends_try_except; intros _; apply ends_ret.
Qed.

(** Whatever a page or a listing raises is swallowed: the three
    adapters always end normally, and [scrape_all] raises only what
    starting the driver raised. *)
Theorem scraping_absorbs_errors (br : browser) (n : nat)
  (sites : list (string * bool)) (w : world) :
  fst (Acres99.scrape_99acres (get_99acres br) n w) = Ok tt
  /\ fst (MagicBricks.scrape_magicbricks (get_magicbricks br) n w) = Ok tt
  /\ fst (Housing.scrape_housing (get_housing br) n w) = Ok tt
  /\ fst (scrape_all br n sites w)
     = match setup_driver br with
       | Ok _ => Ok tt
       | Raise e => Raise e
       end.
Proof.
  assert (A : ends (Acres99.scrape_99acres (get_99acres br) n)).
  { apply ends_bind; [apply ends_modify_status | intros _].
    apply ends_pages_99acres. }
  assert (Mb : ends (MagicBricks.scrape_magicbricks (get_magicbricks br) n)).
  { apply ends_bind; [apply ends_modify_status | intros _].
    apply ends_pages_until_empty. }
  assert (Hs : ends (Housing.scrape_housing (get_housing br) n)).
  { apply ends_bind; [apply ends_modify_status | intros _].
    apply ends_pages_until_empty. }
  split; [destruct (A w) as (w1 & ->); reflexivity |].
  split; [destruct (Mb w) as (w1 & ->); reflexivity |].
  split; [destruct (Hs w) as (w1 & ->); reflexivity |].
  unfold scrape_all, bindM at 1, lift.
  destruct (setup_driver br) as [[] | e]; [| reflexivity].
  match goal with |- fst (?m w) = _ => assert (K : ends m) end.
  { intros w0; unfold try_finally.
    match goal with |- exists w', (let (r, w1) := ?m w0 in _) = _ =>
      assert (K : ends m) end.
    { apply ends_read_status; intros st.
      apply ends_bind; [apply ends_when, A | intros _].
      apply ends_bind; [apply ends_interrupt | intros _].
      apply ends_read_status; intros st1.
      apply ends_bind; [apply ends_when, Mb | intros _].
      apply ends_bind; [apply ends_interrupt | intros _].
      apply ends_read_status; intros st2.
      apply ends_when, Hs. }
    destruct (K w0) as (w1 & ->); now exists w1. }
  destruct (K w) as (w1 & ->); reflexivity.
Qed.

(** *** The first empty page ends a source *)

Lemma pages_until_empty_agree {B : Type} (label : string)
  (listing : B -> M unit) (get get' : nat -> page B) (last max_pages : nat)
  (remaining page_no : nat) (w : world) :
  agree_upto last get get' -> fetched (get last) = Ok [] ->
  (page_no <= last)%nat ->
  scrape_pages_until_empty label listing get max_pages page_no remaining w
  = scrape_pages_until_empty label listing get' max_pages page_no remaining w.
Proof.
  intros Ag Em; revert page_no w; induction remaining as [| k IH];
    intros page_no w L; [reflexivity |].
  cbn [scrape_pages_until_empty].
  rewrite <- (Ag page_no L); unfold bindM.
  destruct (interrupt (stop_before (get page_no)) w) as [[[] | e] w1];
    [| reflexivity].
  unfold read_status.
  destruct (negb (running (status w1))); [reflexivity |].
  unfold modify_status, try_except, lift.
  destruct (Nat.eq_dec page_no last) as [-> | N].
  - rewrite Em; reflexivity.
  - destruct (fetched (get page_no)) as [[| b boxes] | e]; try reflexivity.
    + destruct (for_boxes listing (b :: boxes) _) as [[[] | e] w2]; cbn.
      * apply IH; lia.
      * apply IH; lia.
    + cbn; apply IH; lia.
Qed.

(** MagicBricks and Housing.com are read up to their first empty page:
    what the browser would show on later pages makes no difference. *)
Theorem first_empty_page_ends_source (br br' : browser) (last n : nat)
  (w : world) :
  (1 <= last)%nat ->
  (agree_upto last (get_magicbricks br) (get_magicbricks br') ->
   fetched (get_magicbricks br last) = Ok [] ->
   MagicBricks.scrape_magicbricks (get_magicbricks br) n w
   = MagicBricks.scrape_magicbricks (get_magicbricks br') n w)
  /\ (agree_upto last (get_housing br) (get_housing br') ->
      fetched (get_housing br last) = Ok [] ->
      Housing.scrape_housing (get_housing br) n w
      = Housing.scrape_housing (get_housing br') n w).
Proof.
  intros L; split; intros Ag Em.
  - unfold MagicBricks.scrape_magicbricks, bindM, modify_status.
    now apply (pages_until_empty_agree _ _ _ _ last).
  - unfold Housing.scrape_housing, bindM, modify_status.
    now apply (pages_until_empty_agree _ _ _ _ last).
Qed.

Lemma first_empty_page_ends_source_witness :
  MagicBricks.scrape_magicbricks
    (get_magicbricks (MoreSamples.browser_with [])) 3
    (Samples.world_wanting ["2"; "3"])
  = MagicBricks.scrape_magicbricks
      (get_magicbricks
         (MoreSamples.browser_with [(false, Samples.card "3 BHK Flat")])) 3
      (Samples.world_wanting ["2"; "3"]).
Proof.
  refine (proj1 (first_empty_page_ends_source
                   (MoreSamples.browser_with [])
                   (MoreSamples.browser_with
                      [(false, Samples.card "3 BHK Flat")])
                   2 3 (Samples.world_wanting ["2"; "3"])
                   ltac:(repeat constructor)) _ eq_refl).
  intros n Hn; destruct n as [| [| [| n]]]; try reflexivity; lia.
Defined.

End LoopFacts.

(** ** The star, from the adapter to the filter and the sort *)

Section StarFacts.
Import Aggregate.

Lemma starred_star_yes (b : bool) (d : property_data) :
  preferred_builder d = star_yes b -> starred d = b.
Proof. unfold starred; intros ->; now destruct b. Qed.

(** For a record built by the MagicBricks or the Housing.com adapter,
    the sort counts it as preferred exactly when its builder text holds
    a preferred builder, and a preferred-only filter turns it down
    exactly when it does not. *)
Theorem adapter_star_is_builder_check (self : PropertyFinder)
  (d : property_data) :
  (exists prop, MagicBricks.fill prop = Ok d)
  \/ (exists prop, Housing.fill prop = Ok d) ->
  starred d = Extract.check_preferred_builder (builder d)
  /\ Validate.preferred_check self d
     = preferred_only self && negb (Extract.check_preferred_builder (builder d)).
Proof.
  assert (G : forall b, preferred_builder d = star_yes b ->
                starred d = b
                /\ Validate.preferred_check self d = preferred_only self && negb b).
  { intros b E; split; [now apply starred_star_yes |].
    unfold Validate.preferred_check; rewrite E; now destruct b. }
  intros [[prop E] | [prop E]].
  - unfold MagicBricks.fill in E.
    destruct (Extract.extract_price_numeric _); [| discriminate].
    injection E as <-; now apply G.
  - unfold Housing.fill in E.
    destruct (Extract.extract_price_numeric _); [| discriminate].
    injection E as <-; now apply G.
Qed.

Lemma adapter_star_is_builder_check_witness :
  starred MoreSamples.record_mb
  = Extract.check_preferred_builder (builder MoreSamples.record_mb)
  /\ Validate.preferred_check Samples.finder_23 MoreSamples.record_mb
     = preferred_only Samples.finder_23
       && negb (Extract.check_preferred_builder (builder MoreSamples.record_mb)).
Proof.
  exact (adapter_star_is_builder_check Samples.finder_23 MoreSamples.record_mb
           (or_introl (ex_intro _ (Samples.card "2 BHK Flat") eq_refl))).
Defined.

Lemma not_starred_below (r x : property_data) :
  starred r = false -> ordered r x -> starred x = false.
Proof.
  unfold ordered, key_le, sort_preferred; fold (starred r) (starred x).
  intros ->; destruct (starred x); [discriminate | reflexivity].
Qed.

Lemma sorted_starred_first (l : list property_data) :
  StronglySorted ordered l ->
  l = (filter starred l ++ filter (fun r => negb (starred r)) l)%list.
Proof.
  induction 1 as [| r t S IH F]; [reflexivity |].
  cbn [filter]; destruct (starred r) eqn:E; cbn [negb app].
  - now rewrite <- IH.
  - assert (N : Forall (fun x => starred x = false) t).
    { eapply Forall_impl; [| exact F].
      intros x Hx; now apply (not_starred_below r). }
    assert (A : filter starred t = []).
    { clear -N; induction N as [| x t Hx _ IH]; [reflexivity |].
      cbn [filter]; now rewrite Hx. }
    assert (B : filter (fun r => negb (starred r)) t = t).
    { clear -N; induction N as [| x t Hx _ IH]; [reflexivity |].
      cbn [filter]; now rewrite Hx, IH. }
    now rewrite A, B.
Qed.

(** The table [get_results_df] returns is its starred rows followed by
    its other rows: no row without the star comes before a row with
    it. *)
Theorem get_results_df_starred_first (self : PropertyFinder) :
  get_results_df self
  = (filter starred (get_results_df self)
     ++ filter (fun r => negb (starred r)) (get_results_df self))%list.
Proof.
  apply sorted_starred_first.
  rewrite get_results_df_eq; apply sort_values_sorted.
Qed.

End StarFacts.


(** ** Adding a listing *)

Section AddFacts.



End AddFacts.
